(** * best-invidious-server: the latency-ranking engine

    A shallow embedding of [app.py] (the FastAPI service) and of
    [best-invidious-server.py] (the command-line script), and the
    properties of the prober, the ranker, the cache and the request
    handlers stated over it.

    Modelling conventions.
    - A Python [float] latency is an exact rational ([Q]).  [statistics.mean]
      sums its data exactly and divides once; the final rounding to a float is
      not modelled.  Values produced by [mean] are kept in lowest terms
      ([Qred]), so that equal latencies are equal terms, as equal floats are.
    - Python [int]s are [Z]; [range(count)] runs [Z.to_nat count] times.
    - A Python exception is a constructor of [exn]; a call that may raise
      returns [py A].
    - [ping3.ping] is the network: an oracle that gives the outcome of each
      call.  Every function that pings also reports how many calls it made.
    - Lines 82-97 of [app.py] (fetching the instance list and filtering it)
      are the Endpoint Source: their outcome, either the list [servers] or an
      exception, is a parameter of a refresh. *)

From Stdlib Require Import List String Ascii ZArith QArith Qreduction Qround.
From Stdlib Require Import Bool Lia.
From Stdlib Require Import Permutation Sorted.
Import ListNotations.

Local Open Scope Z_scope.

(** ** Python values and exceptions *)

Inductive exn : Type :=
| StatisticsError
| AttributeError
| IndexError
| FileNotFoundError
| URLError.

Inductive py (A : Type) : Type :=
| Return (a : A)
| Raise (e : exn).

Arguments Return {A} a.
Arguments Raise {A} e.

Definition py_bind {A B : Type} (c : py A) (k : A -> py B) : py B :=
  match c with
  | Return a => k a
  | Raise e => Raise e
  end.

Notation "x <- c ;; k" := (py_bind c (fun x => k))
  (at level 61, c at next level, right associativity).

(** What [ping3.ping] returns: [None] on a timeout, [False] on an error, the
    delay in seconds otherwise. *)
Inductive ping_result : Type :=
| PNone
| PFalse
| PFloat (q : Q).

(** [if ms:] -- the delay when [ms] is truthy.  [None], [False] and a float
    equal to zero are falsy. *)
Definition truthy (ms : ping_result) : option Q :=
  match ms with
  | PFloat q => if Qeq_bool q 0 then None else Some q
  | PNone | PFalse => None
  end.

Definition falsy (ms : ping_result) : bool :=
  match truthy ms with
  | Some _ => false
  | None => true
  end.

(** ** [statistics.mean] *)

Definition Qsum (data : list Q) : Q := fold_right Qplus 0%Q data.

Definition mean (data : list Q) : py Q :=
  match data with
  | [] => Raise StatisticsError
  | _ :: _ => Return (Qred (Qsum data / inject_Z (Z.of_nat (List.length data))))
  end.

(** ** The probing loop shared by both files

    [local_results], [down] are the loop's variables; [sent] counts the calls
    to [ping]. *)

Record probe_state : Type := mkProbe {
  local_results : list Q;
  down : Z;
  sent : nat
}.

Definition probe_start : probe_state := mkProbe [] 0 0.

(** How the [for] statement is left: by running out of [range(count)], or by
    the [return] under [if down > max_retries]. *)
Inductive loop_exit : Type :=
| LoopDone (st : probe_state)
| LoopReturn (st : probe_state).

Definition exit_state (x : loop_exit) : probe_state :=
  match x with
  | LoopDone st | LoopReturn st => st
  end.

(** [for _ in range(count)]: [n] iterations are left, [ping (sent st)] is the
    outcome of the next call. *)
Fixpoint probe_loop (ping : nat -> ping_result) (max_retries : Z)
    (n : nat) (st : probe_state) : loop_exit :=
  match n with
  | O => LoopDone st
  | S n' =>
      let ms := ping (sent st) in
      match truthy ms with
      | Some q =>
          probe_loop ping max_retries n'
            (mkProbe (local_results st ++ [q]) (down st) (S (sent st)))
      | None =>
          let down' := down st + 1 in
          if down' >? max_retries
          then LoopReturn (mkProbe (local_results st) down' (S (sent st)))
          else probe_loop ping max_retries n'
                 (mkProbe (local_results st) down' (S (sent st)))
      end
  end.

(** The value of a call together with the number of pings it sent. *)
Record probed (A : Type) : Type := mkProbed {
  value : py A;
  pings : nat
}.

Arguments mkProbed {A} value pings.
Arguments value {A} p.
Arguments pings {A} p.

(** The body of [_iter_ping] from [local_results = []] on. *)
Definition iter_ping_body (ping : nat -> ping_result) (server : string)
    (count max_retries : Z) : probed (option (Q * string)) :=
  match probe_loop ping max_retries (Z.to_nat count) probe_start with
  | LoopReturn st => mkProbed (Return None) (sent st)
  | LoopDone st =>
      mkProbed (m <- mean (local_results st) ;; Return (Some (m, server)))
               (sent st)
  end.

(** ** [sorted] on a list of [(mean, server)] tuples *)

Definition Qlt_bool (x y : Q) : bool := negb (Qle_bool y x).

(** [a < b] on tuples: the first components decide unless they are equal. *)
Definition tuple_lt (a b : Q * string) : bool :=
  if Qeq_bool (fst a) (fst b)
  then String.ltb (snd a) (snd b)
  else Qlt_bool (fst a) (fst b).

(** [sorted] is stable and compares with [<] only: an element goes in front
    of the first later element that is not smaller than it. *)
Fixpoint insert_sorted (x : Q * string) (l : list (Q * string))
    : list (Q * string) :=
  match l with
  | [] => [x]
  | y :: l' => if tuple_lt y x then y :: insert_sorted x l' else x :: y :: l'
  end.

Definition sorted (l : list (Q * string)) : list (Q * string) :=
  fold_right insert_sorted [] l.

(** ** [OrderedDict]: keys in insertion order; setting a key that is present
    replaces its value where it stands. *)

Definition dict : Type := list (string * Q).

Fixpoint dict_set (k : string) (v : Q) (d : dict) : dict :=
  match d with
  | [] => [(k, v)]
  | (k', v') :: d' =>
      if String.eqb k' k then (k', v) :: d' else (k', v') :: dict_set k v d'
  end.

Definition OrderedDict (items : list (string * Q)) : dict :=
  fold_left (fun d kv => dict_set (fst kv) (snd kv) d) items [].

Definition keys (d : dict) : list string := map fst d.
Definition values (d : dict) : list Q := map snd d.

(** [min(d.values())] on a non-empty sequence: the first smallest value. *)
Definition py_min (v0 : Q) (vs : list Q) : Q :=
  fold_left (fun m v => if Qlt_bool v m then v else m) vs v0.

(** ** String operations of the request handler *)

(** [sub in s]. *)
Fixpoint contains (sub s : string) : bool :=
  if String.prefix sub s then true
  else match s with
       | EmptyString => false
       | String _ s' => contains sub s'
       end.

(** [s.split(sep)] for a non-empty [sep]: the fields between the occurrences
    of [sep], found from left to right without overlap.  [skip] characters of
    an occurrence are still to be passed over; [field] is the field read so
    far. *)
Fixpoint split_from (sep s : string) (skip : nat) (field : string)
    : list string :=
  match s with
  | EmptyString => [field]
  | String c s' =>
      match skip with
      | S k => split_from sep s' k field
      | O =>
          if String.prefix sep s
          then field :: split_from sep s' (String.length sep - 1) EmptyString
          else split_from sep s' O (String.append field (String c EmptyString))
      end
  end.

Definition str_split (sep s : string) : list string :=
  split_from sep s O EmptyString.

(** [l[1]]. *)
Definition item_1 (l : list string) : py string :=
  match l with
  | _ :: x :: _ => Return x
  | _ => Raise IndexError
  end.

(** ** The thread pool

    [as_completed] yields the pending future that finishes next; which one
    that is, is the scheduler's choice: [sched] gives, step by step, the
    position of the chosen future among those still pending. *)

Fixpoint remove_nth {A : Type} (k : nat) (l : list A) : list A :=
  match l, k with
  | [], _ => []
  | _ :: l', O => l'
  | x :: l', S k' => x :: remove_nth k' l'
  end.

Fixpoint as_completed_from {A : Type} (n : nat) (sched : list nat)
    (pending : list A) : list A :=
  match n with
  | O => []
  | S n' =>
      let k := Nat.modulo (hd O sched) (List.length pending) in
      match nth_error pending k with
      | Some f => f :: as_completed_from n' (tl sched) (remove_nth k pending)
      | None => []
      end
  end.

Definition as_completed {A : Type} (sched : list nat) (futures : list A)
    : list A :=
  as_completed_from (List.length futures) sched futures.

(** [for future in ...: results.append(future.result())]: [result()] raises
    again what the call raised, which ends the loop. *)
Fixpoint collect_results {A : Type} (completed : list (py A)) : py (list A) :=
  match completed with
  | [] => Return []
  | f :: rest =>
      x <- f ;; xs <- collect_results rest ;; Return (x :: xs)
  end.

(** [[x for x in results if x]]: [None] is dropped, a pair is kept. *)
Fixpoint keep_truthy {A : Type} (results : list (option A)) : list A :=
  match results with
  | [] => []
  | Some x :: rest => x :: keep_truthy rest
  | None :: rest => keep_truthy rest
  end.

(** The network during one refresh: the outcome of the [k]-th call to
    [ping(server, timeout=timeout)] made by the [i]-th submitted task. *)
Definition network : Type := nat -> string -> Q -> nat -> ping_result.

(** What varies from one refresh to the next. *)
Record refresh_env : Type := mkEnv {
  source : py (list string);
  net : network;
  sched : list nat
}.

(** The markdown report, one record per numbered line:
    [f'{n}. {r} [{uri}]({uri}) (`{round(latency, 4)}` ms)'].  The text of the
    line is not modelled. *)
Record md_line : Type := mkLine {
  md_n : nat;
  md_rocket : bool;
  md_uri : string;
  md_latency : Q
}.

Fixpoint md_lines (n : nat) (r : bool) (items : dict) : list md_line :=
  match items with
  | [] => []
  | (uri, latency) :: rest =>
      mkLine n r uri latency :: md_lines (S n) false rest
  end.

(** ** The Endpoint Source: lines 82-97 of [app.py], lines 48-63 of the script

    [resp] is what [json.loads] read: a list of pairs [name, descriptor].
    A descriptor is a record of the fields the loop reads; its [monitor] is
    [None] when the JSON value is falsy ([null]).  [dailyRatios] holds the
    ratios as [float(x['ratio'])] reads them. *)

Record monitor : Type := mkMonitor {
  statusClass : string;
  dailyRatios : list Q
}.

Record instance : Type := mkInstance {
  inst_monitor : option monitor;
  inst_type : string;
  inst_uri : string
}.

(** [s.replace(old, new)] for a non-empty [old]: every occurrence of [old],
    found from left to right without overlap, becomes [new].  [skip]
    characters of an occurrence are still to be passed over. *)
Fixpoint replace_from (old new s : string) (skip : nat) : string :=
  match s with
  | EmptyString => EmptyString
  | String c s' =>
      match skip with
      | S k => replace_from old new s' k
      | O =>
          if String.prefix old s
          then String.append new
                 (replace_from old new s' (String.length old - 1))
          else String c (replace_from old new s' O)
      end
  end.

Definition str_replace (old new s : string) : string :=
  replace_from old new s O.

(** The body of [for server in resp[::-1]], with [servers] as it stands. *)
Definition keep_instance (inst : instance) (servers : list string)
    : py (list string) :=
  match inst_monitor inst with
  | None => Return servers
  | Some m =>
      if negb (String.eqb (inst_type inst) "https") then Return servers
      else if negb (String.eqb (statusClass m) "success") then Return servers
      else
        health <- mean (dailyRatios m) ;;
        if Qlt_bool health 99 then Return servers
        else Return (servers ++ [str_replace "https://" "" (inst_uri inst)])
  end.

Fixpoint select_loop (resp : list instance) (servers : list string)
    : py (list string) :=
  match resp with
  | [] => Return servers
  | inst :: rest =>
      servers' <- keep_instance inst servers ;; select_loop rest servers'
  end.

(** Lines 84-97: [servers = []], then the loop over [resp[::-1]]. *)
Definition select_servers (resp : list instance) : py (list string) :=
  select_loop (rev resp) [].

(** Lines 82-97: [fetched] is what [urlopen] and [json.loads] gave or
    raised. *)
Definition endpoint_source (fetched : py (list instance)) : py (list string) :=
  resp <- fetched ;; select_servers resp.

(** ** app.py *)

Module App.

Definition default_count : Z := 10.
Definition default_max_retries : Z := 1.
Definition default_timeout : Q := 2 # 10.

(** [_iter_ping(server, count, timeout, max_retries)], with the global
    [skip_list] and the outcomes [ping] of the calls
    [ping(server, timeout=timeout)] it makes. *)
Definition _iter_ping (skip_list : list string) (ping : nat -> ping_result)
    (server : string) (count : Z) (timeout : Q) (max_retries : Z)
    : probed (option (Q * string)) :=
  if in_dec string_dec server skip_list
  then mkProbed (Return None) 0
  else iter_ping_body ping server count max_retries.

(** [Union[dict, str]], the result of [_best_servers]. *)
Inductive best_out : Type :=
| OutDict (results : dict)
| OutMarkdown (content : list md_line).

(** [items = [(server, count, max_retries, timeout) for server in servers]]
    and [futures = [executor.submit(_iter_ping, *item) for item in items]]:
    the task submitted at position [i] for [server].  The tuple is unpacked
    by position into [_iter_ping(server, count, timeout, max_retries)], so
    the prober's [timeout] is the [max_retries] of [_best_servers] and the
    prober's [max_retries] is its [timeout], a float in general.  [down] is
    an integer, so [down > max_retries] with that float is
    [down > floor max_retries]. *)
Fixpoint submit_all (skip_list : list string) (nw : network)
    (count max_retries : Z) (timeout : Q) (i : nat) (servers : list string)
    : list (probed (option (Q * string))) :=
  match servers with
  | [] => []
  | server :: rest =>
      _iter_ping skip_list (nw i server (inject_Z max_retries)) server count
        (inject_Z max_retries) (Qfloor timeout)
      :: submit_all skip_list nw count max_retries timeout (S i) rest
  end.

(** Lines 107-109: sort, swap each pair, put the scheme back, build the
    dictionary. *)
Definition https (server : string) : string :=
  String.append "https://" server.

Definition sorted_results (results : list (option (Q * string)))
    : list (string * Q) :=
  map (fun x => (https (fst x), snd x))
    (map (fun x => (snd x, fst x)) (sorted (keep_truthy results))).

Definition ranking_of (results : list (option (Q * string))) : dict :=
  OrderedDict (sorted_results results).

(** One call of [_best_servers]: what it returns or raises, the contents of
    [.cache.json] afterwards, and the pings every submitted task sent (the
    pool is waited for before line 107, whatever [result()] raised). *)
Record refresh_out : Type := mkOut {
  returned : py best_out;
  cache_after : option dict;
  probes : list (string * nat)
}.

Definition _best_servers (skip_list : list string) (env : refresh_env)
    (cache_before : option dict)
    (count max_retries : Z) (timeout : Q) (return_markdown : bool)
    : refresh_out :=
  match source env with
  | Raise e => mkOut (Raise e) cache_before []
  | Return servers =>
      let futures :=
        submit_all skip_list (net env) count max_retries timeout 0 servers in
      let sent_by := combine servers (map pings futures) in
      match collect_results (as_completed (sched env) (map value futures)) with
      | Raise e => mkOut (Raise e) cache_before sent_by
      | Return results =>
          let results := ranking_of results in
          mkOut
            (Return (if return_markdown
                     then OutMarkdown (md_lines 1 true results)
                     else OutDict results))
            (Some results) sent_by
      end
  end.

(** *** The process: the cache file, the runner and its background task *)

(** The attribute [runner._best_servers]: the string it is created with, then
    what [json.load] read. *)
Inductive runner_value : Type :=
| PyStr (s : string)
| PyDict (d : dict).

Record app_state : Type := mkApp {
  cache_file : option dict;
  runner_best_servers : runner_value;
  bg_task_running : bool
}.

(** [runner = _BackgroundRunner('Warming up... Try again in a minute...')],
    no cache file, the background task created at startup. *)
Definition startup : app_state :=
  mkApp None (PyStr "Warming up... Try again in a minute...") true.

(** One turn of [while True] in [run_bg_task].  The [HTMLResponse] built when
    the cache file is missing is dropped on the spot.  [_best_servers()] is
    called with its defaults; an exception leaves the loop and ends the
    task, nothing in the file catches it. *)
Definition run_bg_task_cycle (skip_list : list string) (env : refresh_env)
    (st : app_state) : app_state :=
  if bg_task_running st then
    let out := _best_servers skip_list env (cache_file st) default_count
                 default_max_retries default_timeout false in
    match returned out with
    | Raise _ =>
        mkApp (cache_after out) (runner_best_servers st) false
    | Return _ =>
        match cache_after out with
        | Some j => mkApp (cache_after out) (PyDict j) true
        | None => mkApp (cache_after out) (runner_best_servers st) false
        end
    end
  else st.

(** The scheduled refreshes, one environment per hour. *)
Definition run_bg_task (skip_list : list string) (envs : list refresh_env)
    (st : app_state) : app_state :=
  fold_left (fun s env => run_bg_task_cycle skip_list env s) envs st.

(** *** Request handlers *)

(** What a handler gives to [HTMLResponse]: a string, or what
    [_best_servers] returned. *)
Inductive content : Type :=
| Text (s : string)
| Rendered (o : best_out).

Inductive response : Type :=
| HTMLResponse (c : content)
| RedirectResponse (url : string)
| PrettyJSONResponse (c : dict).

(** Lines 144-147 of [best_server]: the key whose value is the smallest.
    A string has no [items]; [[...][0]] of an empty list is out of range. *)
Definition best_server_choice (st : app_state) : py string :=
  match runner_best_servers st with
  | PyStr _ => Raise AttributeError
  | PyDict d =>
      match filter (fun kv =>
                      match values d with
                      | [] => false
                      | v0 :: vs => Qeq_bool (snd kv) (py_min v0 vs)
                      end) d with
      | [] => Raise IndexError
      | kv :: _ => Return (fst kv)
      end
  end.

(** Lines 152-157: the video and the channel of the request are put after
    the chosen server. *)
Definition redirect_target (_best_server request_url : string) : py string :=
  with_watch <-
    (if contains "watch" request_url
     then video_id <- item_1 (str_split "/watch?v=" request_url) ;;
          Return (String.append _best_server
                    (String.append "/watch?v=" video_id))
     else Return _best_server) ;;
  if contains "channel" request_url
  then channel_id <- item_1 (str_split "/channel/" request_url) ;;
       Return (String.append with_watch
                 (String.append "/channel/" channel_id))
  else Return with_watch.

(** [best_server(request, redirect)], with [request_url = str(request.url)]. *)
Definition best_server (st : app_state) (request_url : string)
    (redirect : bool) : py response :=
  _best_server <- best_server_choice st ;;
  if negb redirect
  then Return (HTMLResponse (Text _best_server))
  else url <- redirect_target _best_server request_url ;;
       Return (RedirectResponse url).

(** [best_servers(count, max_retries, timeout, return_markdown)]: the
    response, and the state it leaves. *)
Definition best_servers (skip_list : list string) (env : refresh_env)
    (st : app_state) (count max_retries : Z) (timeout : Q)
    (return_markdown : bool) : py response * app_state :=
  if return_markdown then
    let out := _best_servers skip_list env (cache_file st) default_count
                 default_max_retries default_timeout true in
    (resp <- returned out ;; Return (HTMLResponse (Rendered resp)),
     mkApp (cache_after out) (runner_best_servers st) (bg_task_running st))
  else
    match cache_file st with
    | Some resp => (Return (PrettyJSONResponse resp), st)
    | None => (Raise FileNotFoundError, st)
    end.

(** [_app_shutdown]: the cache file is removed when it exists. *)
Definition _app_shutdown (st : app_state) : app_state :=
  match cache_file st with
  | Some _ => mkApp None (runner_best_servers st) (bg_task_running st)
  | None => st
  end.

End App.

(** ** best-invidious-server.py *)

Module Cli.

(** [_iter_ping(server)]; [count], [tolerance] and [timeout] are the globals
    that [best_servers] sets before it submits the tasks. *)
Definition _iter_ping (count tolerance : Z) (timeout : Q)
    (ping : nat -> ping_result) (server : string)
    : probed (option (Q * string)) :=
  iter_ping_body ping server count tolerance.

Fixpoint submit_all (nw : network) (count tolerance : Z) (timeout : Q)
    (i : nat) (servers : list string)
    : list (probed (option (Q * string))) :=
  match servers with
  | [] => []
  | server :: rest =>
      _iter_ping count tolerance timeout (nw i server timeout) server
      :: submit_all nw count tolerance timeout (S i) rest
  end.

(** [best_servers(servers, count=10, tolerance=4, timeout=1)]. *)
Definition best_servers (nw : network) (schedule : list nat)
    (servers : list string) (count tolerance : Z) (timeout : Q) : py dict :=
  let futures := submit_all nw count tolerance timeout 0 servers in
  results <- collect_results (as_completed schedule (map value futures)) ;;
  Return (OrderedDict
            (map (fun x => (snd x, fst x)) (sorted (keep_truthy results)))).

(** [main()]: fetch, select, rank with the defaults of [best_servers]. *)
Definition main (fetched : py (list instance)) (nw : network)
    (schedule : list nat) : py dict :=
  servers <- endpoint_source fetched ;;
  best_servers nw schedule servers 10 4 1.

(** The numbered lines that the script writes to [index.md] after the two
    heading lines. *)
Definition index_md (best_servers : dict) : list md_line :=
  md_lines 1 true best_servers.

End Cli.

(** * Properties *)

(** ** The vocabulary of the specification *)

(** The cumulative failure count after the first [n] probes: how many of them
    were falsy, whatever came between them. *)
Fixpoint failures (ping : nat -> ping_result) (n : nat) : nat :=
  match n with
  | O => O
  | S n' => (failures ping n' + if falsy (ping n') then 1 else 0)%nat
  end.

(** The delays of the successful probes among the first [n], in order. *)
Fixpoint successes (ping : nat -> ping_result) (n : nat) : list Q :=
  match n with
  | O => []
  | S n' =>
      successes ping n' ++
      match truthy (ping n') with Some q => [q] | None => [] end
  end.

(** A probe result the specification calls [Measured]: [_iter_ping] returned
    a pair.  For [Skipped] and for [Excluded] it returns [None]. *)
Definition Measured (r : probed (option (Q * string))) (server : string)
    (mean_latency : Q) : Prop :=
  value r = Return (Some (mean_latency, server)).

(** The ranking a result of [_best_servers] holds: the dictionary, or the
    lines of the report. *)
Definition ranking (o : App.best_out) : dict :=
  match o with
  | App.OutDict d => d
  | App.OutMarkdown c => map (fun l => (md_uri l, md_latency l)) c
  end.

(** Ascending latencies: every entry is at most every later one. *)
Definition ascending (d : dict) : Prop := StronglySorted Qle (values d).

(** What the loop variables are after [sent] probes. *)
Definition tallied (ping : nat -> ping_result) (st : probe_state) : Prop :=
  local_results st = successes ping (sent st) /\
  down st = Z.of_nat (failures ping (sent st)).

(** No failed probe in [[lo, hi)] took the count above [max_retries]. *)
Definition tolerated (ping : nat -> ping_result) (max_retries : Z)
    (lo hi : nat) : Prop :=
  forall j, (lo <= j < hi)%nat -> falsy (ping j) = true ->
    Z.of_nat (failures ping (S j)) <= max_retries.

(** The arithmetic mean of a non-empty list. *)
Definition arithmetic_mean (data : list Q) : Q :=
  (Qsum data / inject_Z (Z.of_nat (List.length data)))%Q.

(** [a] may stand before [b]: [b < a] does not hold. *)
Definition tuple_le (a b : Q * string) : Prop := tuple_lt b a = false.

(** Latencies in lowest terms, as [mean] yields them. *)
Definition canonical (a : Q * string) : Prop := Qred (fst a) = fst a.

(** The task [_best_servers] submits at position [j] for [server], with
    the arguments as [_iter_ping] receives them. *)
Definition task (skip_list : list string) (nw : network)
    (count max_retries : Z) (timeout : Q) (j : nat) (server : string)
    : probed (option (Q * string)) :=
  App._iter_ping skip_list (nw j server (inject_Z max_retries)) server count
    (inject_Z max_retries) (Qfloor timeout).

(** The servers of the pairs in a list of task values. *)
Definition measured_servers (vals : list (py (option (Q * string))))
    : list string :=
  flat_map (fun v => match v with
                     | Return (Some x) => [snd x]
                     | _ => []
                     end) vals.

(** An instance that gets as far as the health test, with its monitor. *)
Definition monitored (inst : instance) : option monitor :=
  match inst_monitor inst with
  | Some m =>
      if String.eqb (inst_type inst) "https" &&
         String.eqb (statusClass m) "success"
      then Some m else None
  | None => None
  end.

(** An instance whose server is selected: it is monitored and the mean of
    its daily ratios is at least 99. *)
Definition healthy (inst : instance) : bool :=
  match monitored inst with
  | Some m => Qle_bool 99 (arithmetic_mean (dailyRatios m))
  | None => false
  end.

(** The host of an instance, as the loop stores it. *)
Definition host_of (inst : instance) : string :=
  str_replace "https://" "" (inst_uri inst).

(** The line of the report for the entry at position [i]. *)
Definition report_line (i : nat) (entry : string * Q) : md_line :=
  mkLine (S i) (Nat.eqb i 0) (fst entry) (snd entry).

(** ** Networks and refreshes used as examples *)

(** A network for the examples: the task submitted at position [j] gets the
    outcomes [nth j outcomes []], then timeouts. *)
Definition scripted (outcomes : list (list ping_result)) : network :=
  fun j _ _ k => nth k (nth j outcomes []) PNone.

(** Two candidates, the first of them listed twice. *)
Definition env_duplicate : refresh_env :=
  mkEnv (Return ["a.example"; "b.example"; "a.example"]%string)
        (scripted [[PFloat (1 # 10)]; [PFloat (2 # 10)]; [PFloat (3 # 10)]])
        [].

(** Scenario A of the specification: a and b answer, c times out. *)
Definition env_scenario_a : refresh_env :=
  mkEnv (Return ["b.example"; "c.example"; "a.example"]%string)
        (scripted [[PFloat (1 # 10); PFloat (1 # 10)]; [];
                   [PFloat (1 # 20); PFloat (1 # 20)]])
        [2; 0]%nat.

(** Scenario A with the candidates submitted in another order and the tasks
    completing in another order. *)
Definition env_scenario_a_reordered : refresh_env :=
  mkEnv (Return ["a.example"; "b.example"; "c.example"]%string)
        (scripted [[PFloat (1 # 20); PFloat (1 # 20)];
                   [PFloat (1 # 10); PFloat (1 # 10)]; []])
        [1; 1; 0]%nat.

(** Scenario C of the specification: b is excluded and would have answered
    faster than a. *)
Definition env_scenario_c : refresh_env :=
  mkEnv (Return ["a.example"; "b.example"]%string)
        (scripted [[PFloat (3 # 10)]; [PFloat (1 # 10)]])
        [].

(** A network on which every ping of the task at position [j] has the
    outcome [nth j outcomes PNone]. *)
Definition steady (outcomes : list ping_result) : network :=
  fun j _ _ _ => nth j outcomes PNone.

Definition env_first_refresh : refresh_env :=
  mkEnv (Return ["a.example"; "b.example"]%string)
        (steady [PFloat (1 # 10); PFloat (1 # 20)]) [].

Definition env_fetch_fails : refresh_env :=
  mkEnv (Raise URLError) (steady []) [].

Definition env_later_refresh : refresh_env :=
  mkEnv (Return ["c.example"%string]) (steady [PFloat (1 # 50)]) [].

Definition env_all_skipped : refresh_env :=
  mkEnv (Return ["a.example"; "b.example"]%string) (steady [PNone; PFalse]) [].


(** A fetched list with an instance that has no daily ratio. *)
Definition instances_no_ratio : list instance :=
  [mkInstance (Some (mkMonitor "success" [100 # 1])) "https"
     "https://a.example";
   mkInstance (Some (mkMonitor "success" [])) "https" "https://b.example"].

(** A candidate listed twice: its first task gets a timeout, its second
    task two answers. *)
Definition env_listed_twice : refresh_env :=
  mkEnv (Return ["a.example"; "a.example"]%string)
        (scripted [[PNone]; [PFloat (1 # 10); PFloat (1 # 10)]])
        [].

(** A server that answers with a negative delay. *)
Definition env_negative_delay : refresh_env :=
  mkEnv (Return ["a.example"%string]) (scripted [[PFloat (-1 # 10)]]) [].

(** A server that answers in 0, 1/10 and 3/10 seconds. *)
Definition env_zero_delay : refresh_env :=
  mkEnv (Return ["a.example"%string])
        (scripted [[PFloat 0; PFloat (1 # 10); PFloat (3 # 10)]]) [].

(** A server that answers fast three times, then slowly. *)
Definition env_slowing_down : refresh_env :=
  mkEnv (Return ["a.example"%string])
        (scripted [[PFloat (1 # 10); PFloat (1 # 10); PFloat (1 # 10);
                    PFloat (3 # 10); PFloat (3 # 10); PFloat (3 # 10);
                    PFloat (3 # 10); PFloat (3 # 10); PFloat (3 # 10);
                    PFloat (3 # 10)]]) [].

(** ** The probing loop *)

Section ProbeLoop.

Variable ping : nat -> ping_result.
Variable max_retries : Z.

Lemma tallied_start : tallied ping probe_start.
Proof. split; reflexivity. Qed.

Lemma tolerated_empty (lo : nat) : tolerated ping max_retries lo lo.
Proof. intros j Hj; lia. Qed.

Lemma tolerated_step (lo hi : nat) :
  tolerated ping max_retries lo hi ->
  (falsy (ping hi) = true -> Z.of_nat (failures ping (S hi)) <= max_retries) ->
  tolerated ping max_retries lo (S hi).
Proof.
  intros Htol Hhi j Hj Hf.
  destruct (Nat.eq_dec j hi) as [-> | Hne]; [now apply Hhi|].
  apply Htol; [lia | exact Hf].
Qed.

Lemma tallied_success (st : probe_state) (q : Q) :
  tallied ping st -> truthy (ping (sent st)) = Some q ->
  tallied ping (mkProbe (local_results st ++ [q]) (down st) (S (sent st))).
Proof.
  intros [Hres Hdown] Hq. unfold tallied; simpl. unfold falsy.
  rewrite Hq, Hres, Hdown. split; [reflexivity | lia].
Qed.

Lemma tallied_failure (st : probe_state) :
  tallied ping st -> truthy (ping (sent st)) = None ->
  tallied ping (mkProbe (local_results st) (down st + 1) (S (sent st))).
Proof.
  intros [Hres Hdown] Hq. unfold tallied; simpl. unfold falsy.
  rewrite Hq, Hres, Hdown, app_nil_r. split; [reflexivity | lia].
Qed.

(** The loop, from any state it can be in: it either runs all [n] probes
    with every failure tolerated, or returns at the first failed probe that
    takes the count above [max_retries]. *)
Lemma probe_loop_spec (n : nat) : forall st lo,
  tallied ping st -> tolerated ping max_retries lo (sent st) ->
  match probe_loop ping max_retries n st with
  | LoopDone st' =>
      tallied ping st' /\ sent st' = (sent st + n)%nat /\
      tolerated ping max_retries lo (sent st')
  | LoopReturn st' =>
      tallied ping st' /\
      exists k, sent st' = S k /\ (sent st <= k < sent st + n)%nat /\
                falsy (ping k) = true /\
                Z.of_nat (failures ping (S k)) > max_retries /\
                tolerated ping max_retries lo k
  end.
Proof.
  induction n as [|n IH]; intros st lo Hst Htol; simpl.
  - split; [exact Hst|]. split; [lia | exact Htol].
  - destruct (truthy (ping (sent st))) as [q|] eqn:Hq.
    + specialize (IH _ lo (tallied_success st q Hst Hq)).
      simpl in IH.
      assert (Hstep : tolerated ping max_retries lo (S (sent st))).
      { apply tolerated_step; [exact Htol|].
        unfold falsy; rewrite Hq; discriminate. }
      specialize (IH Hstep).
      destruct (probe_loop ping max_retries n _) as [st'|st'].
      * destruct IH as (H1 & H2 & H3).
        split; [exact H1|]. split; [lia | exact H3].
      * destruct IH as (H1 & k & H2 & H3 & H4 & H5 & H6).
        split; [exact H1|]. exists k.
        split; [exact H2|]. split; [lia|]. auto.
    + pose proof (tallied_failure st Hst Hq) as Hst'.
      assert (Hdown : down st + 1 = Z.of_nat (failures ping (S (sent st)))).
      { destruct Hst' as [_ Hd]. exact Hd. }
      destruct (Z.gtb_spec (down st + 1) max_retries) as [Hgt|Hgt].
      * split; [exact Hst'|]. exists (sent st).
        split; [reflexivity|]. split; [lia|].
        split; [unfold falsy; now rewrite Hq|].
        split; [cbn [failures] in Hdown |- *; lia | exact Htol].
      * assert (Hstep : tolerated ping max_retries lo (S (sent st))).
        { apply tolerated_step; [exact Htol|]. intros _. lia. }
        specialize (IH _ lo Hst' Hstep). simpl in IH.
        destruct (probe_loop ping max_retries n _) as [st'|st'].
        -- destruct IH as (H1 & H2 & H3).
           split; [exact H1|]. split; [lia | exact H3].
        -- destruct IH as (H1 & k & H2 & H3 & H4 & H5 & H6).
           split; [exact H1|]. exists k.
           split; [exact H2|]. split; [lia|]. auto.
Qed.

(** The loop from [local_results = []], [down = 0]. *)
Lemma probe_loop_from_start (n : nat) :
  match probe_loop ping max_retries n probe_start with
  | LoopDone st' =>
      tallied ping st' /\ sent st' = n /\ tolerated ping max_retries 0 n
  | LoopReturn st' =>
      tallied ping st' /\
      exists k, sent st' = S k /\ (k < n)%nat /\ falsy (ping k) = true /\
                Z.of_nat (failures ping (S k)) > max_retries /\
                tolerated ping max_retries 0 k
  end.
Proof.
  pose proof (probe_loop_spec n probe_start 0 tallied_start (tolerated_empty 0))
    as H.
  destruct (probe_loop ping max_retries n probe_start) as [st'|st'].
  - destruct H as (H1 & H2 & H3). simpl in H2. subst n. auto.
  - destruct H as (H1 & k & H2 & H3 & H4 & H5 & H6).
    split; [exact H1|]. exists k. simpl in H3.
    split; [exact H2|]. split; [lia|]. auto.
Qed.

End ProbeLoop.

(** ** The prober *)

Lemma mean_nonempty (data : list Q) :
  data <> [] -> mean data = Return (Qred (arithmetic_mean data)).
Proof. destruct data; [congruence | reflexivity]. Qed.

Lemma failures_mono (ping : nat -> ping_result) (a b : nat) :
  (a <= b)%nat -> (failures ping a <= failures ping b)%nat.
Proof.
  induction 1 as [|b Hab IH]; [lia|]. simpl. lia.
Qed.

Lemma tolerated_of_total (ping : nat -> ping_result) (max_retries : Z)
    (n : nat) :
  Z.of_nat (failures ping n) <= max_retries -> tolerated ping max_retries 0 n.
Proof.
  intros Hn j Hj _.
  pose proof (failures_mono ping (S j) n ltac:(lia)). lia.
Qed.

(** The loop ran to its end: the call evaluates [statistics.mean] on the
    delays of the successful probes, after [count] pings. *)
Lemma iter_ping_body_done (ping : nat -> ping_result) (server : string)
    (count max_retries : Z) :
  tolerated ping max_retries 0 (Z.to_nat count) ->
  iter_ping_body ping server count max_retries =
  mkProbed (m <- mean (successes ping (Z.to_nat count)) ;;
            Return (Some (m, server)))
           (Z.to_nat count).
Proof.
  intros Htol. unfold iter_ping_body.
  pose proof (probe_loop_from_start ping max_retries (Z.to_nat count)) as H.
  destruct (probe_loop ping max_retries (Z.to_nat count) probe_start)
    as [st'|st'].
  - destruct H as ([Hres _] & Hsent & _). now rewrite Hres, Hsent.
  - destruct H as (_ & k & _ & Hk & Hf & Hgt & _).
    specialize (Htol k ltac:(lia) Hf). lia.
Qed.

(** The loop returned at probe [k], the first failed probe to take the count
    above [max_retries]: the call returns [None] after [k + 1] pings. *)
Lemma iter_ping_body_abort (ping : nat -> ping_result) (server : string)
    (count max_retries : Z) (k : nat) :
  (k < Z.to_nat count)%nat ->
  falsy (ping k) = true ->
  Z.of_nat (failures ping (S k)) > max_retries ->
  tolerated ping max_retries 0 k ->
  iter_ping_body ping server count max_retries = mkProbed (Return None) (S k).
Proof.
  intros Hk Hf Hgt Htol. unfold iter_ping_body.
  pose proof (probe_loop_from_start ping max_retries (Z.to_nat count)) as H.
  destruct (probe_loop ping max_retries (Z.to_nat count) probe_start)
    as [st'|st'].
  - destruct H as (_ & _ & Hall). specialize (Hall k ltac:(lia) Hf). lia.
  - destruct H as (_ & k' & Hsent & Hk' & Hf' & Hgt' & Htol').
    rewrite Hsent. f_equal. f_equal.
    destruct (Nat.lt_trichotomy k' k) as [Hlt | [Heq | Hlt]].
    + specialize (Htol k' ltac:(lia) Hf'). lia.
    + exact Heq.
    + specialize (Htol' k ltac:(lia) Hf). lia.
Qed.

Lemma app_iter_ping_body (skip_list : list string) (ping : nat -> ping_result)
    (server : string) (count : Z) (timeout : Q) (max_retries : Z) :
  ~ In server skip_list ->
  App._iter_ping skip_list ping server count timeout max_retries =
  iter_ping_body ping server count max_retries.
Proof.
  intros Hnot. unfold App._iter_ping.
  destruct (in_dec string_dec server skip_list); [contradiction | reflexivity].
Qed.

Lemma app_iter_ping_excluded (skip_list : list string)
    (ping : nat -> ping_result) (server : string) (count : Z) (timeout : Q)
    (max_retries : Z) :
  In server skip_list ->
  App._iter_ping skip_list ping server count timeout max_retries =
  mkProbed (Return None) 0.
Proof.
  intros Hin. unfold App._iter_ping.
  destruct (in_dec string_dec server skip_list); [reflexivity | contradiction].
Qed.

(** Whatever the network does, a call returns a pair made with [mean], returns
    [None], or raises [StatisticsError]. *)
Lemma iter_ping_body_cases (ping : nat -> ping_result) (server : string)
    (count max_retries : Z) :
  value (iter_ping_body ping server count max_retries) = Return None \/
  value (iter_ping_body ping server count max_retries) =
    Raise StatisticsError \/
  exists data, data <> [] /\
    Forall (fun q => exists j, truthy (ping j) = Some q) data /\
    value (iter_ping_body ping server count max_retries) =
    Return (Some (Qred (arithmetic_mean data), server)).
Proof.
  unfold iter_ping_body.
  pose proof (probe_loop_from_start ping max_retries (Z.to_nat count)) as H.
  destruct (probe_loop ping max_retries (Z.to_nat count) probe_start)
    as [st'|st']; simpl.
  - destruct H as ([Hres _] & _ & _).
    destruct (local_results st') as [|q data] eqn:Hdata; simpl.
    + right; left; reflexivity.
    + right; right. exists (q :: data).
      split; [discriminate|]. split; [|reflexivity].
      rewrite Hres. clear. induction (sent st') as [|n IH]; simpl.
      * constructor.
      * apply Forall_app. split; [exact IH|].
        destruct (truthy (ping n)) as [q|] eqn:Hq; constructor; eauto.
  - left; reflexivity.
Qed.

Lemma app_iter_ping_cases (skip_list : list string) (ping : nat -> ping_result)
    (server : string) (count : Z) (timeout : Q) (max_retries : Z) :
  value (App._iter_ping skip_list ping server count timeout max_retries) =
    Return None \/
  value (App._iter_ping skip_list ping server count timeout max_retries) =
    Raise StatisticsError \/
  ~ In server skip_list /\
  exists data, data <> [] /\
    Forall (fun q => exists j, truthy (ping j) = Some q) data /\
    value (App._iter_ping skip_list ping server count timeout max_retries) =
    Return (Some (Qred (arithmetic_mean data), server)).
Proof.
  unfold App._iter_ping.
  destruct (in_dec string_dec server skip_list) as [Hin|Hnot].
  - left; reflexivity.
  - destruct (iter_ping_body_cases ping server count max_retries)
      as [H | [H | H]]; auto.
Qed.

(** ** The order [sorted] uses *)

Lemma string_compare_trans (a : string) : forall b c,
  String.compare a b = Lt -> String.compare b c = Lt ->
  String.compare a c = Lt.
Proof.
  induction a as [|x a IH]; intros [|y b] [|z c]; simpl; try congruence.
  unfold Ascii.compare.
  destruct (N.compare_spec (N_of_ascii x) (N_of_ascii y)) as [E1|L1|G1];
    destruct (N.compare_spec (N_of_ascii y) (N_of_ascii z)) as [E2|L2|G2];
    destruct (N.compare_spec (N_of_ascii x) (N_of_ascii z)) as [E3|L3|G3];
    try congruence; try lia; eauto.
Qed.

Lemma Qlt_bool_iff (x y : Q) : Qlt_bool x y = true <-> (x < y)%Q.
Proof.
  unfold Qlt_bool. rewrite negb_true_iff, <- not_true_iff_false, Qle_bool_iff.
  split; [apply Qnot_le_lt | apply Qlt_not_le].
Qed.

(** [tuple_lt] is the lexicographic order on (latency, server). *)
Lemma tuple_lt_iff (a b : Q * string) :
  tuple_lt a b = true <->
  (fst a < fst b)%Q \/
  (fst a == fst b)%Q /\ String.compare (snd a) (snd b) = Lt.
Proof.
  unfold tuple_lt, String.ltb.
  destruct (Qeq_bool (fst a) (fst b)) eqn:He.
  - apply Qeq_bool_iff in He. split.
    + intros H. right. split; [exact He|].
      destruct (String.compare (snd a) (snd b)); congruence.
    + intros [Hlt | [_ Hc]]; [|now rewrite Hc].
      rewrite He in Hlt. now apply Qlt_irrefl in Hlt.
  - apply Qeq_bool_neq in He. rewrite Qlt_bool_iff. split; [auto|].
    intros [Hlt | [Heq _]]; [exact Hlt | contradiction].
Qed.

Lemma tuple_le_iff (a b : Q * string) :
  tuple_le a b <->
  (fst a < fst b)%Q \/
  (fst a == fst b)%Q /\ String.compare (snd a) (snd b) <> Gt.
Proof.
  unfold tuple_le. rewrite <- not_true_iff_false, tuple_lt_iff.
  rewrite (String.compare_antisym (snd a) (snd b)).
  destruct (Q_dec (fst a) (fst b)) as [[Hlt | Hgt] | Heq].
  - split; [auto|]. intros _ [H | [H _]].
    + apply (Qlt_irrefl (fst a)). now apply Qlt_trans with (fst b).
    + rewrite H in Hlt. now apply Qlt_irrefl in Hlt.
  - split; [intros H; exfalso; apply H; auto|].
    intros [H | [H _]] _.
    + apply (Qlt_irrefl (fst a)). now apply Qlt_trans with (fst b).
    + rewrite H in Hgt. now apply Qlt_irrefl in Hgt.
  - split.
    + intros H. right. split; [exact Heq|]. intros Hc. apply H. right.
      split; [now symmetry|].
      destruct (String.compare (snd b) (snd a)); simpl in Hc; congruence.
    + intros [H | [_ H]] [H' | [_ H']].
      * rewrite Heq in H. now apply Qlt_irrefl in H.
      * rewrite Heq in H. now apply Qlt_irrefl in H.
      * rewrite Heq in H'. now apply Qlt_irrefl in H'.
      * apply H. rewrite H'. reflexivity.
Qed.

Lemma tuple_lt_le (a b : Q * string) : tuple_lt a b = true -> tuple_le a b.
Proof.
  rewrite tuple_lt_iff, tuple_le_iff.
  intros [H | [H Hc]]; [left; exact H | right].
  split; [exact H | congruence].
Qed.

Lemma tuple_le_fst (a b : Q * string) : tuple_le a b -> (fst a <= fst b)%Q.
Proof.
  rewrite tuple_le_iff. intros [H | [H _]].
  - now apply Qlt_le_weak.
  - rewrite H. apply Qle_refl.
Qed.

Lemma string_not_gt_trans (a b c : string) :
  String.compare a b <> Gt -> String.compare b c <> Gt ->
  String.compare a c <> Gt.
Proof.
  intros Hab Hbc.
  destruct (String.compare a b) eqn:E1; [| |congruence].
  - apply String.compare_eq_iff in E1. now subst b.
  - destruct (String.compare b c) eqn:E2; [| |congruence].
    + apply String.compare_eq_iff in E2. subst c. congruence.
    + rewrite (string_compare_trans a b c E1 E2). discriminate.
Qed.

Lemma tuple_le_trans (a b c : Q * string) :
  tuple_le a b -> tuple_le b c -> tuple_le a c.
Proof.
  rewrite !tuple_le_iff.
  intros [Hab | [Hab Sab]] [Hbc | [Hbc Sbc]].
  - left. now apply Qlt_trans with (fst b).
  - left. now rewrite <- Hbc.
  - left. now rewrite Hab.
  - right. split; [now rewrite Hab|].
    now apply string_not_gt_trans with (snd b).
Qed.

Lemma tuple_le_antisym (a b : Q * string) :
  canonical a -> canonical b -> tuple_le a b -> tuple_le b a -> a = b.
Proof.
  unfold canonical. rewrite !tuple_le_iff.
  destruct a as [qa sa], b as [qb sb]; simpl.
  intros Ca Cb Hab Hba.
  assert (Heq : (qa == qb)%Q).
  { destruct Hab as [Hab | [Hab _]]; [|exact Hab].
    destruct Hba as [Hba | [Hba _]]; [|now symmetry].
    exfalso. apply (Qlt_irrefl qa). now apply Qlt_trans with qb. }
  assert (Hs1 : String.compare sa sb <> Gt).
  { destruct Hab as [Hab | [_ Hab]]; [|exact Hab].
    rewrite Heq in Hab. now apply Qlt_irrefl in Hab. }
  assert (Hs2 : String.compare sb sa <> Gt).
  { destruct Hba as [Hba | [_ Hba]]; [|exact Hba].
    rewrite Heq in Hba. now apply Qlt_irrefl in Hba. }
  f_equal.
  - rewrite <- Ca, <- Cb. now apply Qred_complete.
  - rewrite (String.compare_antisym sa sb) in Hs1.
    destruct (String.compare sb sa) eqn:E; simpl in Hs1; try congruence.
    apply String.compare_eq_iff in E. now symmetry.
Qed.

(** ** [sorted] *)

Lemma insert_sorted_perm (x : Q * string) (l : list (Q * string)) :
  Permutation (insert_sorted x l) (x :: l).
Proof.
  induction l as [|y l IH]; simpl; [reflexivity|].
  destruct (tuple_lt y x); [|reflexivity].
  rewrite IH. apply perm_swap.
Qed.

Lemma sorted_perm (l : list (Q * string)) : Permutation (sorted l) l.
Proof.
  induction l as [|x l IH]; simpl; [reflexivity|].
  rewrite insert_sorted_perm. now constructor.
Qed.

Lemma insert_sorted_sorted (x : Q * string) (l : list (Q * string)) :
  StronglySorted tuple_le l -> StronglySorted tuple_le (insert_sorted x l).
Proof.
  induction 1 as [|y l Hl IH Hy]; simpl.
  - repeat constructor.
  - destruct (tuple_lt y x) eqn:Hyx.
    + constructor; [exact IH|].
      apply (Permutation_Forall (Permutation_sym (insert_sorted_perm x l))).
      constructor; [now apply tuple_lt_le | exact Hy].
    + constructor; [now constructor|].
      constructor; [exact Hyx|].
      eapply Forall_impl; [|exact Hy].
      intros z Hz. now apply tuple_le_trans with y.
Qed.

Lemma sorted_sorted (l : list (Q * string)) :
  StronglySorted tuple_le (sorted l).
Proof.
  induction l as [|x l IH]; simpl; [constructor|].
  now apply insert_sorted_sorted.
Qed.

(** Two sorted arrangements of the same tuples are the same list. *)
Lemma sorted_unique (l1 : list (Q * string)) : forall l2,
  Forall canonical l1 ->
  StronglySorted tuple_le l1 -> StronglySorted tuple_le l2 ->
  Permutation l1 l2 -> l1 = l2.
Proof.
  induction l1 as [|a l1 IH]; intros l2 Hc S1 S2 Hp.
  - apply Permutation_nil in Hp. now subst.
  - destruct l2 as [|b l2].
    { apply Permutation_sym, Permutation_nil in Hp. discriminate. }
    inversion S1 as [|? ? S1' Ha]; subst.
    inversion S2 as [|? ? S2' Hb]; subst.
    inversion Hc as [|? ? Ca Hc']; subst.
    assert (Cb : canonical b).
    { apply (Permutation_Forall Hp) in Hc. now inversion Hc. }
    assert (Hab : a = b).
    { assert (In a (b :: l2)) as [Hi | Hi]
        by (apply (Permutation_in _ Hp); now left);
        [now symmetry|].
      assert (In b (a :: l1)) as [Hj | Hj]
        by (apply (Permutation_in _ (Permutation_sym Hp)); now left);
        [exact Hj|].
      rewrite Forall_forall in Ha, Hb.
      apply tuple_le_antisym; auto. }
    subst b. f_equal.
    apply IH; auto. now apply Permutation_cons_inv with a.
Qed.

Lemma sorted_of_perm (l1 l2 : list (Q * string)) :
  Forall canonical l1 -> Permutation l1 l2 -> sorted l1 = sorted l2.
Proof.
  intros Hc Hp. apply sorted_unique; try apply sorted_sorted.
  - apply (Permutation_Forall (Permutation_sym (sorted_perm l1))). exact Hc.
  - rewrite (sorted_perm l1), (sorted_perm l2). exact Hp.
Qed.

(** ** [OrderedDict] *)

Lemma dict_set_in (k : string) (v : Q) (d : dict) (kv : string * Q) :
  In kv (dict_set k v d) -> kv = (k, v) \/ In kv d.
Proof.
  induction d as [|[k' v'] d IH]; simpl.
  - intros [H | []]. now left.
  - destruct (String.eqb_spec k' k) as [-> | Hne]; simpl.
    + intros [H | H]; auto.
    + intros [H | H]; auto. destruct (IH H); auto.
Qed.

Lemma dict_set_keys (k : string) (v : Q) (d : dict) :
  keys (dict_set k v d) = if in_dec string_dec k (keys d)
                          then keys d else keys d ++ [k].
Proof.
  induction d as [|[k' v'] d IH]; simpl; [reflexivity|].
  destruct (String.eqb_spec k' k) as [-> | Hne]; simpl.
  - destruct (string_dec k k); [reflexivity | congruence].
  - rewrite IH. destruct (string_dec k' k); [congruence|].
    now destruct (in_dec string_dec k (keys d)).
Qed.

Lemma dict_set_fresh (k : string) (v : Q) (d : dict) :
  ~ In k (keys d) -> dict_set k v d = d ++ [(k, v)].
Proof.
  induction d as [|[k' v'] d IH]; simpl; [reflexivity|].
  intros Hnot. destruct (String.eqb_spec k' k) as [-> | Hne].
  - exfalso. apply Hnot. now left.
  - rewrite IH; [reflexivity|]. intros H. apply Hnot. now right.
Qed.

Lemma dict_set_nodup (k : string) (v : Q) (d : dict) :
  NoDup (keys d) -> NoDup (keys (dict_set k v d)).
Proof.
  intros Hd. rewrite dict_set_keys.
  destruct (in_dec string_dec k (keys d)) as [Hin | Hnot]; [exact Hd|].
  apply NoDup_rev in Hd. rewrite <- (rev_involutive (keys d ++ [k])).
  apply NoDup_rev. rewrite rev_app_distr. simpl.
  constructor; [|exact Hd]. now rewrite <- in_rev.
Qed.

Lemma fold_dict_set_in (items : list (string * Q)) : forall d kv,
  In kv (fold_left (fun d kv => dict_set (fst kv) (snd kv) d) items d) ->
  In kv d \/ In kv items.
Proof.
  induction items as [|[k v] items IH]; intros d kv; simpl; [auto|].
  intros H. apply IH in H. destruct H as [H | H]; [|auto].
  apply dict_set_in in H. simpl in H. destruct H as [-> | H]; auto.
Qed.

Lemma fold_dict_set_nodup (items : list (string * Q)) : forall d,
  NoDup (keys d) ->
  NoDup (keys (fold_left (fun d kv => dict_set (fst kv) (snd kv) d) items d)).
Proof.
  induction items as [|[k v] items IH]; intros d Hd; simpl; [exact Hd|].
  apply IH. now apply dict_set_nodup.
Qed.

Lemma fold_dict_set_fresh (items : list (string * Q)) : forall d,
  NoDup (keys d ++ map fst items) ->
  fold_left (fun d kv => dict_set (fst kv) (snd kv) d) items d = d ++ items.
Proof.
  induction items as [|[k v] items IH]; intros d Hd; simpl.
  - now rewrite app_nil_r.
  - simpl in Hd. rewrite dict_set_fresh.
    + rewrite IH.
      * now rewrite <- app_assoc.
      * unfold keys in *. rewrite map_app, <- app_assoc. exact Hd.
    + apply NoDup_remove_2 in Hd. intros H. apply Hd.
      apply in_or_app. now left.
Qed.

(** Every item of the dictionary is one of the pairs it was built from. *)
Lemma OrderedDict_in (items : list (string * Q)) (kv : string * Q) :
  In kv (OrderedDict items) -> In kv items.
Proof.
  intros H. apply fold_dict_set_in in H. destruct H as [[] | H]. exact H.
Qed.

Lemma OrderedDict_nodup (items : list (string * Q)) :
  NoDup (keys (OrderedDict items)).
Proof. apply fold_dict_set_nodup. constructor. Qed.

(** Pairs with distinct keys are stored as they come. *)
Lemma OrderedDict_distinct (items : list (string * Q)) :
  NoDup (map fst items) -> OrderedDict items = items.
Proof. intros H. unfold OrderedDict. now rewrite fold_dict_set_fresh. Qed.

(** ** The thread pool *)

Lemma remove_nth_perm {A : Type} (l : list A) : forall k f,
  nth_error l k = Some f ->
  Permutation (f :: remove_nth k l) l /\
  List.length l = S (List.length (remove_nth k l)).
Proof.
  induction l as [|x l IH]; intros [|k] f; simpl; try discriminate.
  - intros [= ->]. split; reflexivity.
  - intros H. destruct (IH k f H) as [Hp Hl]. split.
    + rewrite perm_swap. now constructor.
    + destruct l; [destruct k; discriminate|]. simpl in *. lia.
Qed.

(** Whatever the scheduler chooses, every future completes once. *)
Lemma as_completed_from_perm {A : Type} (n : nat) :
  forall schedule (pending : list A),
    List.length pending = n ->
    Permutation (as_completed_from n schedule pending) pending.
Proof.
  induction n as [|n IH]; intros schedule pending Hlen; simpl.
  - destruct pending; [reflexivity | discriminate].
  - destruct (nth_error pending
                (Nat.modulo (hd O schedule) (List.length pending)))
      as [f|] eqn:Hf.
    + destruct (remove_nth_perm _ _ _ Hf) as [Hp Hl].
      eapply Permutation_trans; [|exact Hp].
      constructor. apply IH. lia.
    + apply nth_error_None in Hf.
      assert (Nat.modulo (hd O schedule) (List.length pending)
              < List.length pending)%nat
        by (apply Nat.mod_upper_bound; lia).
      lia.
Qed.

Lemma as_completed_perm {A : Type} (schedule : list nat) (futures : list A) :
  Permutation (as_completed schedule futures) futures.
Proof. now apply as_completed_from_perm. Qed.

Lemma collect_results_return {A : Type} (completed : list (py A)) :
  forall xs, collect_results completed = Return xs ->
             completed = map Return xs.
Proof.
  induction completed as [|[x|e] rest IH]; intros xs; simpl.
  - now intros [= <-].
  - destruct (collect_results rest) as [ys|e]; simpl; [|discriminate].
    intros [= <-]. simpl. now rewrite (IH ys).
  - discriminate.
Qed.

Lemma collect_results_raise {A : Type} (completed : list (py A)) (e : exn) :
  collect_results completed = Raise e -> In (Raise e) completed.
Proof.
  induction completed as [|[x|e'] rest IH]; simpl.
  - discriminate.
  - destruct (collect_results rest) as [ys|e'']; simpl; [discriminate|].
    intros [= ->]. right. now apply IH.
  - intros [= ->]. now left.
Qed.

(** Task values that all returned are permuted as what they returned. *)
Lemma map_Return_perm {A : Type} (xs ys : list A) :
  Permutation (map (@Return A) xs) (map (@Return A) ys) -> Permutation xs ys.
Proof.
  intros Hp. apply Permutation_map_inv in Hp. destruct Hp as (l3 & Heq & Hp).
  assert (xs = l3).
  { clear -Heq. revert l3 Heq.
    induction xs as [|x xs IH]; intros [|y l3]; simpl; try discriminate.
    - reflexivity.
    - intros [= -> H]. f_equal. now apply IH. }
  subst l3. now apply Permutation_sym.
Qed.

Lemma keep_truthy_perm {A : Type} (l1 l2 : list (option A)) :
  Permutation l1 l2 -> Permutation (keep_truthy l1) (keep_truthy l2).
Proof.
  induction 1 as [|[x|] l1 l2 Hp IH|[x|] [y|] l|l1 l2 l3 H1 IH1 H2 IH2];
    simpl; auto.
  - apply perm_swap.
  - now apply Permutation_trans with (keep_truthy l2).
Qed.

Lemma keep_truthy_in {A : Type} (l : list (option A)) (x : A) :
  In x (keep_truthy l) <-> In (Some x) l.
Proof.
  induction l as [|[y|] l IH]; simpl.
  - tauto.
  - rewrite IH. split; intros [H | H]; auto; left; congruence.
  - rewrite IH. split; [auto|]. intros [H | H]; [discriminate | exact H].
Qed.

(** ** The ranker *)

Lemma md_lines_ranking (d : dict) : forall n r,
  map (fun l => (md_uri l, md_latency l)) (md_lines n r d) = d.
Proof.
  induction d as [|[k v] d IH]; intros n r; simpl; [reflexivity|].
  now rewrite IH.
Qed.

Lemma ranking_rendered (return_markdown : bool) (d : dict) :
  ranking (if return_markdown
           then App.OutMarkdown (md_lines 1 true d)
           else App.OutDict d) = d.
Proof.
  destruct return_markdown; simpl; [apply md_lines_ranking | reflexivity].
Qed.

Section Ranker.

Variable skip_list : list string.
Variable nw : network.
Variables count max_retries : Z.
Variable timeout : Q.

Local Abbreviation task_at :=
  (task skip_list nw count max_retries timeout).

Lemma submit_all_in (servers : list string) : forall i r,
  In r (App.submit_all skip_list nw count max_retries timeout i servers) ->
  exists j server,
    nth_error servers j = Some server /\
    r = task_at (i + j)%nat server.
Proof.
  induction servers as [|s servers IH]; intros i r; simpl; [tauto|].
  intros [<- | H].
  - exists O, s. split; [reflexivity|]. now rewrite Nat.add_0_r.
  - destruct (IH _ _ H) as (j & server & Hj & ->).
    exists (S j), server. split; [exact Hj|]. f_equal. lia.
Qed.

Lemma submit_all_probes (servers : list string) : forall i s n,
  In (s, n)
     (combine servers
        (map pings
           (App.submit_all skip_list nw count max_retries timeout i
              servers))) ->
  exists j,
    nth_error servers j = Some s /\
    n = pings (task_at (i + j)%nat s).
Proof.
  induction servers as [|s0 servers IH]; intros i s n; simpl; [tauto|].
  intros [[= <- <-] | H].
  - exists O. split; [reflexivity|]. now rewrite Nat.add_0_r.
  - destruct (IH _ _ _ H) as (j & Hj & ->).
    exists (S j). split; [exact Hj|]. do 2 f_equal. lia.
Qed.

(** A task raises nothing but [StatisticsError]. *)
Lemma submit_all_raise (servers : list string) (i : nat) (e : exn) :
  In (Raise e)
     (map value
        (App.submit_all skip_list nw count max_retries timeout i servers)) ->
  e = StatisticsError.
Proof.
  intros H. apply in_map_iff in H. destruct H as (r & Hr & Hin).
  apply submit_all_in in Hin. destruct Hin as (j & server & _ & ->).
  pose proof (app_iter_ping_cases skip_list
                (nw (i + j)%nat server (inject_Z max_retries)) server count
                (inject_Z max_retries) (Qfloor timeout)) as Hc.
  unfold task in Hr.
  destruct Hc as [Hc | [Hc | (_ & data & _ & _ & Hc)]];
    rewrite Hc in Hr; congruence.
Qed.

(** The pairs among the task values are measurements of the candidates they
    were submitted for, with latencies in lowest terms. *)
Lemma submit_all_measured (servers : list string) (i : nat) (v : Q)
    (s : string) :
  In (Return (Some (v, s)))
     (map value
        (App.submit_all skip_list nw count max_retries timeout i servers)) ->
  canonical (v, s) /\
  exists j,
    nth_error servers j = Some s /\ Measured (task_at (i + j)%nat s) s v.
Proof.
  intros H. apply in_map_iff in H. destruct H as (r & Hr & Hin).
  apply submit_all_in in Hin. destruct Hin as (j & server & Hj & ->).
  pose proof (app_iter_ping_cases skip_list
                (nw (i + j)%nat server (inject_Z max_retries)) server count
                (inject_Z max_retries) (Qfloor timeout)) as Hc.
  unfold task in Hr.
  destruct Hc as [Hc | [Hc | (_ & data & _ & _ & Hc)]];
    rewrite Hc in Hr; try congruence.
  assert (Hv : v = Qred (arithmetic_mean data)) by congruence.
  assert (Hs : s = server) by congruence.
  subst v s. split.
  - unfold canonical; cbn [fst]. apply Qred_complete, Qred_correct.
  - exists j. split; [exact Hj|]. exact Hc.
Qed.

Lemma measured_servers_results (results : list (option (Q * string))) :
  measured_servers (map Return results) = map snd (keep_truthy results).
Proof.
  induction results as [|[x|] results IH]; simpl; [reflexivity| |exact IH].
  now rewrite <- IH.
Qed.

Lemma measured_servers_task (j : nat) (server : string) :
  incl (measured_servers [value (task_at j server)]) [server].
Proof.
  pose proof (app_iter_ping_cases skip_list
                (nw j server (inject_Z max_retries)) server count
                (inject_Z max_retries) (Qfloor timeout)) as Hc.
  unfold task. simpl.
  destruct Hc as [Hc | [Hc | (_ & data & _ & _ & Hc)]]; rewrite Hc;
    cbn [snd app]; intros x Hx; solve [destruct Hx | exact Hx].
Qed.

Lemma measured_servers_incl (servers : list string) : forall i,
  incl (measured_servers
          (map value
             (App.submit_all skip_list nw count max_retries timeout i servers)))
       servers.
Proof.
  induction servers as [|s servers IH]; intros i x; simpl; [tauto|].
  rewrite in_app_iff. intros [H | H].
  - left. pose proof (measured_servers_task i s x) as Ht. simpl in Ht.
    rewrite app_nil_r in Ht. destruct (Ht H) as [E | []]. exact E.
  - right. now apply (IH (S i)).
Qed.

Lemma measured_servers_nodup (servers : list string) : forall i,
  NoDup servers ->
  NoDup (measured_servers
           (map value
              (App.submit_all skip_list nw count max_retries timeout i
                 servers))).
Proof.
  induction servers as [|s servers IH]; intros i Hnd; simpl; [constructor|].
  inversion Hnd as [|? ? Hs Hnd']; subst.
  pose proof (measured_servers_task i s) as Ht. simpl in Ht.
  rewrite app_nil_r in Ht. fold (task_at i s).
  destruct (match value (task_at i s) with
            | Return (Some x) => [snd x]
            | _ => []
            end) as [|x [|y l]] eqn:Hm; simpl.
  - now apply IH.
  - constructor; [|now apply IH].
    intros Hin. apply measured_servers_incl in Hin.
    destruct (Ht x (or_introl eq_refl)) as [<- | []]. contradiction.
  - destruct (value (task_at i s)) as [[p|]|e]; discriminate.
Qed.

End Ranker.

(** What one call of [_best_servers] does once the Endpoint Source has given
    [servers]: it collects the task values in some order and publishes their
    ranking, or a task raised and nothing is written. *)
Lemma best_servers_cases (skip_list : list string) (env : refresh_env)
    (cache_before : option dict) (count max_retries : Z) (timeout : Q)
    (return_markdown : bool) (servers : list string) :
  source env = Return servers ->
  (exists results,
     Permutation (map Return results)
       (map value
          (App.submit_all skip_list (net env) count max_retries timeout 0
             servers)) /\
     App.returned
       (App._best_servers skip_list env cache_before count max_retries
          timeout return_markdown) =
     Return (if return_markdown
             then App.OutMarkdown (md_lines 1 true (App.ranking_of results))
             else App.OutDict (App.ranking_of results)) /\
     App.cache_after (App._best_servers skip_list env cache_before count
                    max_retries timeout return_markdown) =
     Some (App.ranking_of results)) \/
  (App.returned (App._best_servers skip_list env cache_before count max_retries
               timeout return_markdown) = Raise StatisticsError /\
   App.cache_after (App._best_servers skip_list env cache_before count
                  max_retries timeout return_markdown) = cache_before /\
   In (Raise StatisticsError)
     (map value
        (App.submit_all skip_list (net env) count max_retries timeout 0
           servers))).
Proof.
  intros Hsrc. unfold App._best_servers. rewrite Hsrc.
  destruct (collect_results
              (as_completed (sched env)
                 (map value
                    (App.submit_all skip_list (net env) count max_retries
                       timeout 0 servers)))) as [results|e] eqn:Hcol.
  - left. exists results. split; [|split; reflexivity].
    apply collect_results_return in Hcol. rewrite <- Hcol.
    apply as_completed_perm.
  - right. cbn [App.returned App.cache_after].
    apply collect_results_raise in Hcol.
    apply (Permutation_in _ (as_completed_perm _ _)) in Hcol.
    pose proof (submit_all_raise _ _ _ _ _ _ _ _ Hcol) as He. subst e.
    auto.
Qed.

Lemma best_servers_probes (skip_list : list string) (env : refresh_env)
    (cache_before : option dict) (count max_retries : Z) (timeout : Q)
    (return_markdown : bool) (servers : list string) :
  source env = Return servers ->
  App.probes (App._best_servers skip_list env cache_before count max_retries
            timeout return_markdown) =
  combine servers
    (map pings
       (App.submit_all skip_list (net env) count max_retries timeout 0
          servers)).
Proof.
  intros Hsrc. unfold App._best_servers. rewrite Hsrc.
  now destruct (collect_results _).
Qed.

Lemma sorted_results_eq (results : list (option (Q * string))) :
  App.sorted_results results =
  map (fun x => (App.https (snd x), fst x)) (sorted (keep_truthy results)).
Proof. unfold App.sorted_results. now rewrite map_map. Qed.

Lemma https_inj (a b : string) : App.https a = App.https b -> a = b.
Proof. unfold App.https. simpl. congruence. Qed.

(** Where an entry of a ranking comes from. *)
Lemma ranking_of_in (results : list (option (Q * string))) (uri : string)
    (latency : Q) :
  In (uri, latency) (App.ranking_of results) ->
  exists server, uri = App.https server /\ In (Some (latency, server)) results.
Proof.
  intros H. apply OrderedDict_in in H. rewrite sorted_results_eq in H.
  apply in_map_iff in H. destruct H as ([v s] & [= <- <-] & H).
  apply (Permutation_in _ (sorted_perm _)) in H.
  apply keep_truthy_in in H. now exists s.
Qed.

(** With pairwise distinct servers the dictionary keeps the sorted order,
    whatever one-to-one renaming [key] the servers go through. *)
Lemma dict_of_sorted_distinct (key : string -> string)
    (results : list (option (Q * string))) :
  (forall a b, key a = key b -> a = b) ->
  NoDup (map snd (keep_truthy results)) ->
  OrderedDict
    (map (fun x => (key (snd x), fst x)) (sorted (keep_truthy results))) =
  map (fun x => (key (snd x), fst x)) (sorted (keep_truthy results)) /\
  ascending
    (map (fun x => (key (snd x), fst x)) (sorted (keep_truthy results))).
Proof.
  intros Hinj Hnd. split.
  - apply OrderedDict_distinct.
    rewrite map_map. cbn [fst].
    rewrite <- (map_map snd key).
    apply Finite.Injective_map_NoDup; [exact Hinj|].
    apply (Permutation_NoDup
             (Permutation_map snd (Permutation_sym (sorted_perm _)))).
    exact Hnd.
  - unfold ascending, values. rewrite map_map. cbn [snd].
    generalize (sorted_sorted (keep_truthy results)).
    induction 1 as [|x l Hl IH Hx]; simpl; constructor; [exact IH|].
    rewrite Forall_map. eapply Forall_impl; [|exact Hx].
    intros y. apply tuple_le_fst.
Qed.

Lemma ranking_of_distinct (results : list (option (Q * string))) :
  NoDup (map snd (keep_truthy results)) ->
  ascending (App.ranking_of results).
Proof.
  intros Hnd. unfold App.ranking_of. rewrite sorted_results_eq.
  destruct (dict_of_sorted_distinct App.https results https_inj Hnd)
    as [-> Hasc].
  exact Hasc.
Qed.

(** Every entry of a returned ranking is the mean that the task of one of
    the candidates returned. *)
Lemma best_servers_entry (skip_list : list string) (env : refresh_env)
    (cache_before : option dict) (count max_retries : Z) (timeout : Q)
    (return_markdown : bool) (servers : list string) (o : App.best_out)
    (uri : string) (latency : Q) :
  source env = Return servers ->
  App.returned
    (App._best_servers skip_list env cache_before count max_retries timeout
       return_markdown) = Return o ->
  In (uri, latency) (ranking o) ->
  exists j server,
    nth_error servers j = Some server /\
    uri = App.https server /\
    Measured
      (App._iter_ping skip_list (net env j server (inject_Z max_retries))
         server count (inject_Z max_retries) (Qfloor timeout)) server latency.
Proof.
  intros Hsrc Ho Hin.
  destruct (best_servers_cases skip_list env cache_before count max_retries
              timeout return_markdown servers Hsrc)
    as [(results & Hperm & Hret & _) | (Hret & _)];
    rewrite Hret in Ho; [|discriminate].
  injection Ho as <-. rewrite ranking_rendered in Hin.
  apply ranking_of_in in Hin. destruct Hin as (server & -> & Hin).
  assert (Hv : In (Return (Some (latency, server))) (map Return results))
    by now apply in_map.
  apply (Permutation_in _ Hperm) in Hv.
  apply submit_all_measured in Hv. destruct Hv as (_ & j & Hj & Hm).
  exists j, server. auto.
Qed.

(** A candidate listed once whose task returned [None] is in no ranking
    that the refresh returns. *)
Lemma none_absent (skip_list : list string) (env : refresh_env)
    (cache_before : option dict) (count max_retries : Z) (timeout : Q)
    (return_markdown : bool) (servers : list string) (o : App.best_out)
    (j : nat) (server : string) :
  source env = Return servers ->
  nth_error servers j = Some server ->
  (forall j', nth_error servers j' = Some server -> j' = j) ->
  value (task skip_list (net env) count max_retries timeout j server) =
    Return None ->
  App.returned
    (App._best_servers skip_list env cache_before count max_retries timeout
       return_markdown) = Return o ->
  ~ In (App.https server) (keys (ranking o)).
Proof.
  intros Hsrc Hj Honce Hnone Ho Hin.
  unfold keys in Hin. apply in_map_iff in Hin.
  destruct Hin as ([uri latency] & Huri & Hin). simpl in Huri. subst uri.
  destruct (best_servers_entry skip_list env cache_before count max_retries
              timeout return_markdown servers o _ latency Hsrc Ho Hin)
    as (j' & server' & Hj' & Heq & Hm).
  apply https_inj in Heq. subst server'.
  rewrite (Honce j' Hj') in Hm. unfold Measured in Hm.
  unfold task in Hnone. rewrite Hnone in Hm. discriminate.
Qed.

(** [down > max_retries] when [max_retries] is a float: [down] is an
    integer, so the test is [down > floor max_retries]. *)
Lemma float_threshold_floor (max_retries : Q) (down : Z) :
  Qlt_bool max_retries (inject_Z down) = (down >? Qfloor max_retries).
Proof.
  destruct (Z.gtb_spec down (Qfloor max_retries)) as [Hgt | Hle].
  - apply Qlt_bool_iff.
    apply Qlt_le_trans with (inject_Z (Qfloor max_retries + 1)).
    + apply Qlt_floor.
    + rewrite <- Zle_Qle. lia.
  - apply not_true_iff_false. rewrite Qlt_bool_iff. intros Hlt.
    assert (Qfloor max_retries < down).
    { rewrite Zlt_Qlt. apply Qle_lt_trans with max_retries; [|exact Hlt].
      apply Qfloor_le. }
    lia.
Qed.

(** ** Positive latencies *)

Lemma truthy_some (ms : ping_result) (q : Q) :
  truthy ms = Some q -> ms = PFloat q /\ ~ (q == 0)%Q.
Proof.
  destruct ms as [| |q']; simpl; try discriminate.
  destruct (Qeq_bool q' 0) eqn:He; [discriminate|].
  intros [= <-]. split; [reflexivity | now apply Qeq_bool_neq].
Qed.

Lemma Qsum_pos (data : list Q) :
  data <> [] -> Forall (fun q => 0 < q)%Q data -> (0 < Qsum data)%Q.
Proof.
  intros Hne Hall. induction Hall as [|q data Hq Hall IH]; [congruence|].
  simpl. destruct data as [|q' data].
  - simpl. now rewrite Qplus_0_r.
  - assert (0 < Qsum (q' :: data))%Q by (apply IH; discriminate).
    rewrite <- (Qplus_0_r 0). apply Qplus_lt_le_compat; [exact Hq|].
    now apply Qlt_le_weak.
Qed.

Lemma arithmetic_mean_pos (data : list Q) :
  data <> [] -> Forall (fun q => 0 < q)%Q data ->
  (0 < Qred (arithmetic_mean data))%Q.
Proof.
  intros Hne Hall. rewrite Qred_correct. unfold arithmetic_mean.
  apply Qlt_shift_div_l.
  - destruct data; [congruence|]. simpl List.length.
    unfold Qlt; simpl. lia.
  - rewrite Qmult_0_l. now apply Qsum_pos.
Qed.

Lemma successes_pos (ping : nat -> ping_result) (n : nat) :
  (forall k q, ping k = PFloat q -> 0 <= q)%Q ->
  Forall (fun q => 0 < q)%Q (successes ping n).
Proof.
  intros Hnn. induction n as [|n IH]; simpl; [constructor|].
  apply Forall_app. split; [exact IH|].
  destruct (truthy (ping n)) as [q|] eqn:Hq; constructor; [|constructor].
  apply truthy_some in Hq. destruct Hq as [Hq Hne].
  apply Hnn in Hq. apply Qle_lteq in Hq.
  destruct Hq as [Hq | Hq]; [exact Hq|]. exfalso. apply Hne. now symmetry.
Qed.

Lemma failures_ext (ping ping' : nat -> ping_result) (n : nat) :
  (forall j, (j < n)%nat -> ping' j = ping j) ->
  failures ping' n = failures ping n.
Proof.
  induction n as [|n IH]; intros Hext; simpl; [reflexivity|].
  rewrite IH by (intros; apply Hext; lia). now rewrite Hext by lia.
Qed.

(** * The claims about the prober *)

(** C1 (refuted by the code).  The claim: when all [probe_count] probes fail
    and the failure count never exceeds [max_consecutive_failures], the
    result is [Skipped] and nothing crashes.  The code: the loop ends with
    [local_results] empty and line 72 calls [statistics.mean] on it, which
    raises [StatisticsError].  Here: two timeouts with [count = 2] and
    [max_retries = 5] in a direct call of [_iter_ping], in both files; and
    [_best_servers(2, 1, 5)], whose tasks receive 5 as their [max_retries]:
    the exception comes out of [future.result()] and no ranking is
    published. *)
Theorem C1_no_success_within_tolerance_raises :
  App._iter_ping [] (fun _ => PNone) "a.example" 2 (2 # 10) 5 =
    mkProbed (Raise StatisticsError) 2 /\
  Cli._iter_ping 2 5 1 (fun _ => PNone) "a.example" =
    mkProbed (Raise StatisticsError) 2 /\
  App._best_servers []
    (mkEnv (Return ["a.example"%string]) (fun _ _ _ _ => PNone) [])
    None 2 1 5 false =
  App.mkOut (Raise StatisticsError) None [("a.example"%string, 2%nat)].
Proof. repeat split. Qed.

(** The same for every input: no successful probe and every failure
    tolerated make the call raise. *)
Lemma iter_ping_no_success_raises (ping : nat -> ping_result)
    (server : string) (count max_retries : Z) :
  tolerated ping max_retries 0 (Z.to_nat count) ->
  successes ping (Z.to_nat count) = [] ->
  iter_ping_body ping server count max_retries =
  mkProbed (Raise StatisticsError) (Z.to_nat count).
Proof.
  intros Htol Hnone. rewrite iter_ping_body_done by exact Htol.
  now rewrite Hnone.
Qed.

(** C5 as stated fails in its remark on the ranking.  A candidate listed
    twice, under [_best_servers(2, 1, 0.2)]: the first task gets a timeout,
    its count 1 is above the 0.2 it received as [max_retries], and it
    returns [None] after one ping; the second task returns the mean 1/10,
    and the endpoint is in the ranking. *)
Lemma C5_listed_twice_counterexample :
  task [] (net env_listed_twice) 2 1 (2 # 10) 0 "a.example" =
    mkProbed (Return None) 1 /\
  App._best_servers [] env_listed_twice None 2 1 (2 # 10) false =
  App.mkOut (Return (App.OutDict [("https://a.example"%string, 1 # 10)]))
    (Some [("https://a.example"%string, 1 # 10)])
    [("a.example"%string, 1%nat); ("a.example"%string, 2%nat)] /\
  In "https://a.example"%string (keys [("https://a.example"%string, 1 # 10)]).
Proof. repeat split. now left. Qed.

(** C5 (amended).  The failure count is cumulative: after any run of the
    loop, [down] is the number of failed probes among those sent, successes
    in between included.  At the first failed probe [k] that takes this
    count above [max_retries] the call returns [None] ([Skipped]) having
    sent exactly [k + 1] pings, whatever the later probes would have
    answered; no mean is computed.  When the endpoint is listed once among
    the candidates of a refresh whose task for it is this call, it is in no
    ranking that the refresh returns. *)
Theorem C5_abort_on_cumulative_failures :
  forall (skip_list : list string) (ping : nat -> ping_result)
         (server : string) (count : Z) (timeout : Q) (max_retries : Z)
         (k : nat),
    ~ In server skip_list ->
    (k < Z.to_nat count)%nat ->
    falsy (ping k) = true ->
    Z.of_nat (failures ping (S k)) > max_retries ->
    tolerated ping max_retries 0 k ->
    (forall ping' : nat -> ping_result,
        (forall j, (j <= k)%nat -> ping' j = ping j) ->
        App._iter_ping skip_list ping' server count timeout max_retries =
          mkProbed (Return None) (S k) /\
        Cli._iter_ping count max_retries timeout ping' server =
          mkProbed (Return None) (S k)) /\
    (forall n,
        down (exit_state (probe_loop ping max_retries n probe_start)) =
        Z.of_nat
          (failures ping
             (sent
                (exit_state (probe_loop ping max_retries n probe_start))))) /\
    (forall env cache_before return_markdown servers j caller_max_retries
            caller_timeout o,
        source env = Return servers ->
        nth_error servers j = Some server ->
        (forall j', nth_error servers j' = Some server -> j' = j) ->
        Qfloor caller_timeout = max_retries ->
        (forall i, (i <= k)%nat ->
           net env j server (inject_Z caller_max_retries) i = ping i) ->
        App.returned
          (App._best_servers skip_list env cache_before count
             caller_max_retries caller_timeout return_markdown) = Return o ->
        ~ In (App.https server) (keys (ranking o))).
Proof.
  intros skip_list ping server count timeout max_retries k
    Hnot Hk Hf Hgt Htol.
  assert (Habort : forall ping' : nat -> ping_result,
             (forall j, (j <= k)%nat -> ping' j = ping j) ->
             iter_ping_body ping' server count max_retries =
             mkProbed (Return None) (S k)).
  { intros ping' Hext. apply iter_ping_body_abort.
    - exact Hk.
    - now rewrite Hext by lia.
    - rewrite (failures_ext ping ping') by (intros; apply Hext; lia).
      exact Hgt.
    - intros j Hj Hfj.
      rewrite (failures_ext ping ping') by (intros; apply Hext; lia).
      apply Htol; [exact Hj|]. now rewrite <- Hext by lia. }
  split; [|split].
  3:{ intros env cache_before return_markdown servers j caller_max_retries
        caller_timeout o Hsrc Hj Honce Hfloor Hext Ho.
      apply (none_absent skip_list env cache_before count caller_max_retries
               caller_timeout return_markdown servers o j server Hsrc Hj
               Honce); [|exact Ho].
      unfold task. rewrite app_iter_ping_body by exact Hnot.
      rewrite Hfloor. now rewrite (Habort _ Hext). }
  - intros ping' Hext.
    split; [|exact (Habort ping' Hext)].
    rewrite app_iter_ping_body by exact Hnot. exact (Habort ping' Hext).
  - intros n.
    pose proof (probe_loop_from_start ping max_retries n) as H.
    destruct (probe_loop ping max_retries n probe_start) as [st'|st'];
      destruct H as [[_ Hd] _]; exact Hd.
Qed.

(** C5 at an input: failures at probes 1 and 3 with successes around them,
    [max_retries = 1]; the call returns [None] after 4 of the 6 pings. *)
Lemma C5_abort_witness :
  let ping := fun j => nth j [PFloat (1 # 10); PNone; PFloat (1 # 10); PFalse;
                              PFloat (1 # 10); PFloat (1 # 10)] PNone in
  App._iter_ping [] ping "a.example" 6 (2 # 10) 1 =
    mkProbed (Return None) 4 /\
  down (exit_state (probe_loop ping 1 6 probe_start)) = 2.
Proof.
  intros ping.
  destruct (C5_abort_on_cumulative_failures [] ping "a.example" 6 (2 # 10) 1 3)
    as (Habort & Hdown & _).
  - simpl; tauto.
  - simpl; lia.
  - reflexivity.
  - simpl; lia.
  - intros [|[|[|j]]] Hj Hf; simpl in *; try lia; discriminate.
  - split.
    + apply (Habort ping). reflexivity.
    + rewrite (Hdown 6%nat). reflexivity.
Defined.

(** C6.  When no failed probe takes the count above [max_retries] during the
    [count] probes and at least one probe succeeds, the call sends all
    [count] pings and returns [(mean_latency, server)] ([Measured]), where
    [mean_latency] is the arithmetic mean of the delays of exactly the
    successful probes. *)
Theorem C6_measured_mean_of_successes :
  forall (skip_list : list string) (ping : nat -> ping_result)
         (server : string) (count : Z) (timeout : Q) (max_retries : Z),
    ~ In server skip_list ->
    tolerated ping max_retries 0 (Z.to_nat count) ->
    successes ping (Z.to_nat count) <> [] ->
    exists mean_latency : Q,
      (mean_latency == arithmetic_mean (successes ping (Z.to_nat count)))%Q /\
      App._iter_ping skip_list ping server count timeout max_retries =
        mkProbed (Return (Some (mean_latency, server))) (Z.to_nat count) /\
      Cli._iter_ping count max_retries timeout ping server =
        mkProbed (Return (Some (mean_latency, server))) (Z.to_nat count).
Proof.
  intros skip_list ping server count timeout max_retries Hnot Htol Hsome.
  exists (Qred (arithmetic_mean (successes ping (Z.to_nat count)))).
  split; [apply Qred_correct|].
  assert (Hbody : iter_ping_body ping server count max_retries =
                  mkProbed
                    (Return
                       (Some
                          (Qred (arithmetic_mean
                                   (successes ping (Z.to_nat count))),
                           server)))
                    (Z.to_nat count)).
  { rewrite iter_ping_body_done by exact Htol.
    now rewrite mean_nonempty by exact Hsome. }
  split; [|exact Hbody].
  now rewrite app_iter_ping_body.
Qed.

(** C6 at an input: delays 1/10, 3/10 and 2/10 around one timeout, with
    [max_retries = 1]: the mean is 2/10 = (1/10 + 3/10 + 2/10) / 3. *)
Lemma C6_measured_witness :
  let ping := fun j => nth j [PFloat (1 # 10); PNone; PFloat (3 # 10);
                              PFloat (2 # 10)] PNone in
  exists mean_latency : Q,
    (mean_latency == ((1 # 10) + (3 # 10) + (2 # 10)) / 3)%Q /\
    App._iter_ping [] ping "a.example" 4 (2 # 10) 1 =
      mkProbed (Return (Some (mean_latency, "a.example"%string))) 4.
Proof.
  intros ping.
  destruct (C6_measured_mean_of_successes [] ping "a.example" 4 (2 # 10) 1)
    as (m & Hm & Happ & _).
  - simpl; tauto.
  - apply tolerated_of_total. simpl; lia.
  - discriminate.
  - exists m. split; [|exact Happ].
    rewrite Hm. reflexivity.
Defined.

Lemma successes_nonzero (ping : nat -> ping_result) (n : nat) :
  Forall (fun q => ~ (q == 0)%Q) (successes ping n).
Proof.
  induction n as [|n IH]; simpl; [constructor|].
  apply Forall_app. split; [exact IH|].
  destruct (truthy (ping n)) as [q|] eqn:Hq; constructor; [|constructor].
  now apply truthy_some in Hq.
Qed.

(** C10 as stated fails.  A negative float is truthy: a ping that reports
    -1/10 is appended to [local_results], and [_best_servers(1, 1, 0.2)]
    returns and publishes a ranking with the mean -1/10. *)
Lemma C10_negative_delay_counterexample :
  App._best_servers [] env_negative_delay None 1 1 (2 # 10) false =
  App.mkOut (Return (App.OutDict [("https://a.example"%string, -1 # 10)]))
    (Some [("https://a.example"%string, -1 # 10)])
    [("a.example"%string, 1%nat)] /\
  ~ (0 < -1 # 10)%Q.
Proof. split; [reflexivity|]. unfold Qlt; simpl. lia. Qed.

(** C10 (amended).  A delay equal to zero is falsy, so the probe that
    reports it counts as a failure, and every delay the loop appends to
    [local_results] is different from zero.  When the delays that the pings
    report are not negative, every delay in [local_results] is above zero,
    so is the mean of every [Measured] result, and so is every latency of a
    ranking that [_best_servers] returns and publishes. *)
Theorem C10_measured_latencies_positive :
  forall (skip_list : list string) (env : refresh_env)
         (cache_before : option dict) (count max_retries : Z) (timeout : Q)
         (return_markdown : bool),
    (forall q threshold st,
        (q == 0)%Q ->
        probe_loop (fun _ => PFloat q) threshold 1 st =
        probe_loop (fun _ => PNone) threshold 1 st) /\
    (forall j server n,
        Forall (fun q => ~ (q == 0)%Q)
          (local_results
             (exit_state
                (probe_loop (net env j server (inject_Z max_retries))
                   (Qfloor timeout) n probe_start)))) /\
    ((forall j server t k q, net env j server t k = PFloat q -> (0 <= q)%Q) ->
     (forall j server n,
         Forall (fun q => 0 < q)%Q
           (local_results
              (exit_state
                 (probe_loop (net env j server (inject_Z max_retries))
                    (Qfloor timeout) n probe_start)))) /\
     (forall j server mean_latency,
         Measured
           (App._iter_ping skip_list (net env j server (inject_Z max_retries))
              server count (inject_Z max_retries) (Qfloor timeout))
           server mean_latency ->
         (0 < mean_latency)%Q) /\
     (forall o,
         App.returned
           (App._best_servers skip_list env cache_before count max_retries
              timeout return_markdown) = Return o ->
         Forall (fun latency => 0 < latency)%Q (values (ranking o)) /\
         App.cache_after
           (App._best_servers skip_list env cache_before count max_retries
              timeout return_markdown) = Some (ranking o))).
Proof.
  intros skip_list env cache_before count max_retries timeout
    return_markdown.
  split; [|split].
  - intros q threshold st Hq. cbn [probe_loop truthy].
    now rewrite (Qeq_eq_bool q 0 Hq).
  - intros j server n.
    pose proof (probe_loop_from_start
                  (net env j server (inject_Z max_retries)) (Qfloor timeout) n)
      as H.
    destruct (probe_loop (net env j server (inject_Z max_retries))
                (Qfloor timeout) n probe_start)
      as [st'|st']; destruct H as [[Hres _] _]; simpl; rewrite Hres;
      apply successes_nonzero.
  - intros Hnn.
    assert (Hpos : forall j server t data,
               Forall (fun q => exists k,
                         truthy (net env j server t k) = Some q) data ->
               Forall (fun q => 0 < q)%Q data).
    { intros j server t data Hd. eapply Forall_impl; [|exact Hd].
      intros q (k & Hk). apply truthy_some in Hk. destruct Hk as [Hk Hne].
      apply Hnn in Hk. apply Qle_lteq in Hk.
      destruct Hk as [Hk | Hk]; [exact Hk|].
      exfalso. apply Hne. now symmetry. }
    assert (Hmeasured : forall j server mean_latency,
               Measured
                 (App._iter_ping skip_list
                    (net env j server (inject_Z max_retries)) server count
                    (inject_Z max_retries) (Qfloor timeout))
                 server mean_latency ->
               (0 < mean_latency)%Q).
    { intros j server m Hm. unfold Measured in Hm.
      destruct (app_iter_ping_cases skip_list
                  (net env j server (inject_Z max_retries)) server count
                  (inject_Z max_retries) (Qfloor timeout))
        as [Hc | [Hc | (_ & data & Hne & Hd & Hc)]];
        rewrite Hc in Hm; try discriminate.
      assert (Hv : m = Qred (arithmetic_mean data)) by congruence.
      subst m. apply arithmetic_mean_pos; [exact Hne|].
      now apply (Hpos j server (inject_Z max_retries)). }
    split; [|split].
    + intros j server n.
      pose proof (probe_loop_from_start
                    (net env j server (inject_Z max_retries))
                    (Qfloor timeout) n) as H.
      destruct (probe_loop (net env j server (inject_Z max_retries))
                  (Qfloor timeout) n probe_start)
        as [st'|st']; destruct H as [[Hres _] _]; simpl; rewrite Hres;
        apply successes_pos; intros k q; apply Hnn.
    + exact Hmeasured.
    + intros o Ho.
      destruct (source env) as [servers|e] eqn:Hsrc.
      2:{ unfold App._best_servers in Ho. rewrite Hsrc in Ho. discriminate. }
      destruct (best_servers_cases skip_list env cache_before count
                  max_retries timeout return_markdown servers Hsrc)
        as [(results & Hperm & Hret & Hcache) | (Hret & _)];
        rewrite Hret in Ho; [|discriminate].
      injection Ho as <-. rewrite ranking_rendered. split; [|exact Hcache].
      unfold values. rewrite Forall_map. apply Forall_forall.
      intros [uri latency] Hin. simpl.
      apply ranking_of_in in Hin. destruct Hin as (server & _ & Hin).
      assert (Hv : In (Return (Some (latency, server))) (map Return results))
        by now apply in_map.
      apply (Permutation_in _ Hperm) in Hv.
      apply submit_all_measured in Hv. destruct Hv as (_ & j & _ & Hm).
      now apply (Hmeasured j server).
Qed.

(** C10 at an input: a server that answers in 0, 1/10 and 3/10 seconds,
    under [_best_servers(3, 1, 1)], whose tasks tolerate one failure; the
    zero is that failure and the mean is that of the other two. *)
Lemma C10_positive_witness :
  (forall j server t k q,
      net env_zero_delay j server t k = PFloat q -> (0 <= q)%Q) /\
  App._best_servers [] env_zero_delay None 3 1 1 false =
  App.mkOut (Return (App.OutDict [("https://a.example"%string, 1 # 5)]))
    (Some [("https://a.example"%string, 1 # 5)])
    [("a.example"%string, 3%nat)] /\
  Forall (fun latency => 0 < latency)%Q
    (values [("https://a.example"%string, 1 # 5)]).
Proof.
  assert (Hnn : forall j server t k q,
             net env_zero_delay j server t k = PFloat q -> (0 <= q)%Q).
  { intros j server t k q H.
    assert (Hq : q = 0%Q \/ q = 1 # 10 \/ q = 3 # 10).
    { unfold env_zero_delay, scripted in H. cbn [net] in H.
      destruct j as [|[|j]]; destruct k as [|[|[|[|k]]]]; simpl in H;
        try discriminate; injection H as <-; auto. }
    destruct Hq as [-> | [-> | ->]]; unfold Qle; simpl; lia. }
  split; [exact Hnn|]. split; [reflexivity|].
  destruct (C10_measured_latencies_positive [] env_zero_delay None 3 1 1
              false) as (_ & _ & Hpos).
  destruct (Hpos Hnn) as (_ & _ & Hrank).
  exact (proj1 (Hrank (App.OutDict [("https://a.example"%string, 1 # 5)])
                  eq_refl)).
Defined.

(** * The claims about the ranker *)

(** C3 as stated fails.  With a candidate listed twice and measured at 1/10
    and at 3/10, the sorted pairs are (a, 1/10), (b, 2/10), (a, 3/10);
    [OrderedDict] keeps a's first position and its last value, so the ranking
    is a: 3/10, b: 1/5, which is not ascending. *)
Lemma C3_duplicate_candidate_counterexample :
  App.returned
    (App._best_servers [] env_duplicate None 1 1 (2 # 10) false) =
  Return (App.OutDict [("https://a.example"%string, 3 # 10);
                       ("https://b.example"%string, 1 # 5)]) /\
  ~ ascending [("https://a.example"%string, 3 # 10);
               ("https://b.example"%string, 1 # 5)].
Proof.
  split; [reflexivity|].
  unfold ascending; simpl. intros H.
  inversion H as [|? ? _ Hall]; subst.
  inversion Hall as [|? ? Hle _]; subst.
  revert Hle. unfold Qle; simpl. lia.
Qed.

(** C3 (amended).  Every ranking that [_best_servers] returns has no
    duplicate endpoint, and each of its entries is a [Measured] result: the
    mean that the task of one of the candidates returned.  When no candidate
    is listed twice, the ranking is ascending by mean latency, and a
    candidate whose task returned [None] ([Skipped] or [Excluded]) is not in
    it. *)
Theorem C3_ranking_well_formed :
  forall (skip_list : list string) (env : refresh_env)
         (cache_before : option dict) (count max_retries : Z) (timeout : Q)
         (return_markdown : bool) (servers : list string) (o : App.best_out),
    source env = Return servers ->
    App.returned
      (App._best_servers skip_list env cache_before count max_retries timeout
         return_markdown) = Return o ->
    NoDup (keys (ranking o)) /\
    (forall uri latency,
        In (uri, latency) (ranking o) ->
        exists j server,
          nth_error servers j = Some server /\
          uri = App.https server /\
          Measured
            (App._iter_ping skip_list
               (net env j server (inject_Z max_retries)) server count
               (inject_Z max_retries) (Qfloor timeout)) server latency) /\
    (NoDup servers -> ascending (ranking o)) /\
    (NoDup servers ->
     forall j server,
       nth_error servers j = Some server ->
       value
         (App._iter_ping skip_list (net env j server (inject_Z max_retries))
            server count (inject_Z max_retries) (Qfloor timeout)) =
       Return None ->
       ~ In (App.https server) (keys (ranking o))).
Proof.
  intros skip_list env cache_before count max_retries timeout return_markdown
    servers o Hsrc Ho.
  split; [|split; [|split]].
  - destruct (best_servers_cases skip_list env cache_before count max_retries
                timeout return_markdown servers Hsrc)
      as [(results & _ & Hret & _) | (Hret & _)];
      rewrite Hret in Ho; [|discriminate].
    injection Ho as <-. rewrite ranking_rendered. apply OrderedDict_nodup.
  - intros uri latency Hin.
    exact (best_servers_entry skip_list env cache_before count max_retries
             timeout return_markdown servers o uri latency Hsrc Ho Hin).
  - intros Hnd.
    destruct (best_servers_cases skip_list env cache_before count max_retries
                timeout return_markdown servers Hsrc)
      as [(results & Hperm & Hret & _) | (Hret & _)];
      rewrite Hret in Ho; [|discriminate].
    injection Ho as <-. rewrite ranking_rendered.
    apply ranking_of_distinct.
    rewrite <- measured_servers_results.
    apply (Permutation_NoDup
             (Permutation_flat_map _ (Permutation_sym Hperm))).
    now apply measured_servers_nodup.
  - intros Hnd j server Hj Hnone.
    apply (none_absent skip_list env cache_before count max_retries timeout
             return_markdown servers o j server Hsrc Hj); [|exact Hnone
                                                           |exact Ho].
    intros j' Hj'. apply (proj1 (NoDup_nth_error servers) Hnd).
    + apply nth_error_Some. rewrite Hj'. discriminate.
    + now rewrite Hj, Hj'.
Qed.

(** C3 at an input: scenario A, where the ranking is a: 1/20, b: 1/10. *)
Lemma C3_ranking_witness :
  App.returned
    (App._best_servers [] env_scenario_a None 2 1 (2 # 10) false) =
  Return (App.OutDict [("https://a.example"%string, 1 # 20);
                       ("https://b.example"%string, 1 # 10)]) /\
  NoDup ["https://a.example"; "https://b.example"]%string /\
  ascending [("https://a.example"%string, 1 # 20);
             ("https://b.example"%string, 1 # 10)].
Proof.
  split; [reflexivity|].
  destruct (C3_ranking_well_formed [] env_scenario_a None 2 1 (2 # 10) false
              ["b.example"; "c.example"; "a.example"]%string
              (App.OutDict [("https://a.example"%string, 1 # 20);
                            ("https://b.example"%string, 1 # 10)])
              eq_refl eq_refl) as (Hkeys & _ & Hasc & _).
  split; [exact Hkeys|].
  apply Hasc.
  repeat constructor; simpl; intuition discriminate.
Defined.

(** Equal multisets of task values give equal rankings. *)
Lemma ranking_of_perm (skip_list : list string) (nw : network)
    (count max_retries : Z) (timeout : Q) (servers : list string)
    (results1 results2 : list (option (Q * string))) :
  Permutation (map Return results1)
    (map value
       (App.submit_all skip_list nw count max_retries timeout 0 servers)) ->
  Permutation results1 results2 ->
  App.ranking_of results1 = App.ranking_of results2.
Proof.
  intros Hvals Hperm. unfold App.ranking_of, App.sorted_results.
  do 3 f_equal. apply sorted_of_perm; [|now apply keep_truthy_perm].
  apply Forall_forall. intros [v s] Hin.
  apply keep_truthy_in in Hin.
  assert (Hv : In (Return (Some (v, s))) (map Return results1))
    by now apply in_map.
  apply (Permutation_in _ Hvals) in Hv.
  now apply submit_all_measured in Hv.
Qed.

(** C4.  Two runs of [_best_servers] whose tasks returned the same values,
    submitted in any order (the order of the candidates) and completed in any
    order (the schedules of the two environments are arbitrary), return the
    same ranking in the same order, or both raise the same exception: the
    result is a function of the multiset of task results only. *)
Theorem C4_ranking_independent_of_scheduling :
  forall (skip_list : list string) (env1 env2 : refresh_env)
         (cache1 cache2 : option dict) (count max_retries : Z) (timeout : Q)
         (return_markdown : bool) (servers1 servers2 : list string),
    source env1 = Return servers1 ->
    source env2 = Return servers2 ->
    Permutation
      (map value
         (App.submit_all skip_list (net env1) count max_retries timeout 0
            servers1))
      (map value
         (App.submit_all skip_list (net env2) count max_retries timeout 0
            servers2)) ->
    App.returned
      (App._best_servers skip_list env1 cache1 count max_retries timeout
         return_markdown) =
    App.returned
      (App._best_servers skip_list env2 cache2 count max_retries timeout
         return_markdown).
Proof.
  intros skip_list env1 env2 cache1 cache2 count max_retries timeout
    return_markdown servers1 servers2 Hsrc1 Hsrc2 Hperm.
  destruct (best_servers_cases skip_list env1 cache1 count max_retries
              timeout return_markdown servers1 Hsrc1)
    as [(results1 & Hp1 & Hret1 & _) | (Hret1 & _ & Hin1)];
    destruct (best_servers_cases skip_list env2 cache2 count max_retries
                timeout return_markdown servers2 Hsrc2)
      as [(results2 & Hp2 & Hret2 & _) | (Hret2 & _ & Hin2)];
    rewrite Hret1, Hret2.
  - assert (Hres : Permutation results1 results2).
    { apply map_Return_perm.
      apply Permutation_trans with
        (map value
           (App.submit_all skip_list (net env1) count max_retries timeout 0
              servers1)); [exact Hp1|].
      apply Permutation_trans with
        (map value
           (App.submit_all skip_list (net env2) count max_retries timeout 0
              servers2)); [exact Hperm|].
      now apply Permutation_sym. }
    now rewrite (ranking_of_perm skip_list (net env1) count max_retries
                   timeout servers1 results1 results2 Hp1 Hres).
  - exfalso.
    apply (Permutation_in _ (Permutation_sym Hperm)) in Hin2.
    apply (Permutation_in _ (Permutation_sym Hp1)) in Hin2.
    apply in_map_iff in Hin2. destruct Hin2 as (x & Hx & _). discriminate.
  - exfalso.
    apply (Permutation_in _ Hperm) in Hin1.
    apply (Permutation_in _ (Permutation_sym Hp2)) in Hin1.
    apply in_map_iff in Hin1. destruct Hin1 as (x & Hx & _). discriminate.
  - reflexivity.
Qed.

(** C4 at an input: the two runs of scenario A return the same ranking. *)
Lemma C4_scheduling_witness :
  App.returned
    (App._best_servers [] env_scenario_a None 2 1 (2 # 10) false) =
  App.returned
    (App._best_servers [] env_scenario_a_reordered None 2 1 (2 # 10) false) /\
  App.returned
    (App._best_servers [] env_scenario_a_reordered None 2 1 (2 # 10) false) =
  Return (App.OutDict [("https://a.example"%string, 1 # 20);
                       ("https://b.example"%string, 1 # 10)]).
Proof.
  split; [|reflexivity].
  apply (C4_ranking_independent_of_scheduling [] env_scenario_a
           env_scenario_a_reordered None None 2 1 (2 # 10) false
           ["b.example"; "c.example"; "a.example"]%string
           ["a.example"; "b.example"; "c.example"]%string eq_refl eq_refl).
  vm_compute.
  apply Permutation_sym.
  apply (Permutation_cons_app [_; _] [] _). apply Permutation_refl.
Defined.

(** * The exclusion list *)

(** C7.  An endpoint of the exclusion list is never in a ranking that
    [_best_servers] returns, and no task submitted for it sends a ping:
    [_iter_ping] returns [None] for it before the first call to [ping]. *)
Theorem C7_excluded_never_ranked_nor_probed :
  forall (skip_list : list string) (env : refresh_env)
         (cache_before : option dict) (count max_retries : Z) (timeout : Q)
         (return_markdown : bool) (server : string),
    In server skip_list ->
    (forall ping,
        App._iter_ping skip_list ping server count timeout max_retries =
        mkProbed (Return None) 0) /\
    (forall o,
        App.returned
          (App._best_servers skip_list env cache_before count max_retries
             timeout return_markdown) = Return o ->
        ~ In (App.https server) (keys (ranking o))) /\
    (forall n,
        In (server, n)
           (App.probes
              (App._best_servers skip_list env cache_before count max_retries
                 timeout return_markdown)) ->
        n = 0%nat).
Proof.
  intros skip_list env cache_before count max_retries timeout return_markdown
    server Hskip.
  split; [intros ping; now apply app_iter_ping_excluded|].
  destruct (source env) as [servers|e] eqn:Hsrc.
  2:{ unfold App._best_servers. rewrite Hsrc. cbn [App.returned App.probes].
      split; [discriminate | intros n []]. }
  split.
  - intros o Ho Hin. unfold keys in Hin. apply in_map_iff in Hin.
    destruct Hin as ([uri latency] & Huri & Hin). simpl in Huri. subst uri.
    destruct (best_servers_entry skip_list env cache_before count max_retries
                timeout return_markdown servers o _ latency Hsrc Ho Hin)
      as (j & server' & _ & Heq & Hm).
    apply https_inj in Heq. subst server'.
    unfold Measured in Hm.
    rewrite app_iter_ping_excluded in Hm by exact Hskip. discriminate.
  - intros n Hin.
    rewrite (best_servers_probes skip_list env cache_before count max_retries
               timeout return_markdown servers Hsrc) in Hin.
    apply submit_all_probes in Hin. destruct Hin as (j & _ & ->).
    unfold task. now rewrite app_iter_ping_excluded by exact Hskip.
Qed.

(** C7 at an input: scenario C; the ranking holds a only and b got no
    ping. *)
Lemma C7_excluded_witness :
  In "b.example"%string ["b.example"%string] /\
  App._best_servers ["b.example"%string] env_scenario_c None 1 1 (2 # 10)
    false =
  App.mkOut (Return (App.OutDict [("https://a.example"%string, 3 # 10)]))
    (Some [("https://a.example"%string, 3 # 10)])
    [("a.example"%string, 1%nat); ("b.example"%string, 0%nat)] /\
  ~ In "https://b.example"%string
      (keys [("https://a.example"%string, 3 # 10)]).
Proof.
  split; [simpl; tauto|]. split; [reflexivity|].
  destruct (C7_excluded_never_ranked_nor_probed ["b.example"%string]
              env_scenario_c None 1 1 (2 # 10) false "b.example"%string)
    as (_ & Hranked & _).
  - simpl; tauto.
  - exact (Hranked (App.OutDict [("https://a.example"%string, 3 # 10)])
             eq_refl).
Defined.

(** * The cache, the refresh loop and the request handlers *)

(** A call of [_best_servers] that returns has written what it returns to
    [.cache.json]; a call that raises has not touched the file. *)
Lemma best_servers_publishes (skip_list : list string) (env : refresh_env)
    (cache_before : option dict) (count max_retries : Z) (timeout : Q)
    (return_markdown : bool) :
  match App.returned
          (App._best_servers skip_list env cache_before count max_retries
             timeout return_markdown) with
  | Return o =>
      App.cache_after
        (App._best_servers skip_list env cache_before count max_retries
           timeout return_markdown) = Some (ranking o)
  | Raise _ =>
      App.cache_after
        (App._best_servers skip_list env cache_before count max_retries
           timeout return_markdown) = cache_before
  end.
Proof.
  unfold App._best_servers.
  destruct (source env) as [servers|e]; [|reflexivity].
  destruct (collect_results _) as [results|e]; [|reflexivity].
  cbn [App.returned App.cache_after]. now rewrite ranking_rendered.
Qed.

(** C8 as stated fails in its last part.  After a refresh that published and
    a refresh whose fetch raised, the background task is over: the next
    scheduled refresh does nothing, although it would have replaced the
    ranking had the task been alive. *)
Lemma C8_refresh_loop_ends_counterexample :
  App.cache_file
    (App.run_bg_task [] [env_first_refresh; env_fetch_fails] App.startup) =
  Some [("https://b.example"%string, 1 # 20);
        ("https://a.example"%string, 1 # 10)] /\
  App.bg_task_running
    (App.run_bg_task [] [env_first_refresh; env_fetch_fails] App.startup) =
  false /\
  App.cache_file
    (App.run_bg_task []
       [env_first_refresh; env_fetch_fails; env_later_refresh] App.startup) =
  Some [("https://b.example"%string, 1 # 20);
        ("https://a.example"%string, 1 # 10)] /\
  App.cache_file
    (App.run_bg_task [] [env_first_refresh; env_later_refresh] App.startup) =
  Some [("https://c.example"%string, 1 # 50)].
Proof. repeat split. Qed.

(** C8 (amended).  When the fetch of the Endpoint Source raises during a
    refresh that follows one that published the ranking [d], nothing is
    published: [.cache.json] and [runner._best_servers] still hold [d], and
    the request handlers answer as before the failure.  The exception ends
    the background task, so no later scheduled refresh runs. *)
Theorem C8_failed_fetch_keeps_cache_and_ends_task :
  forall (skip_list : list string) (env1 env2 : refresh_env)
         (st0 : App.app_state) (d : dict) (e : exn),
    App.bg_task_running st0 = true ->
    App.returned
      (App._best_servers skip_list env1 (App.cache_file st0)
         App.default_count App.default_max_retries App.default_timeout false) =
    Return (App.OutDict d) ->
    source env2 = Raise e ->
    App.run_bg_task_cycle skip_list env1 st0 =
      App.mkApp (Some d) (App.PyDict d) true /\
    App.run_bg_task_cycle skip_list env2
      (App.run_bg_task_cycle skip_list env1 st0) =
      App.mkApp (Some d) (App.PyDict d) false /\
    (forall request_url redirect,
        App.best_server
          (App.run_bg_task_cycle skip_list env2
             (App.run_bg_task_cycle skip_list env1 st0)) request_url redirect =
        App.best_server (App.run_bg_task_cycle skip_list env1 st0)
          request_url redirect) /\
    (forall env count max_retries timeout,
        fst (App.best_servers skip_list env
               (App.run_bg_task_cycle skip_list env2
                  (App.run_bg_task_cycle skip_list env1 st0))
               count max_retries timeout false) =
        Return (App.PrettyJSONResponse d)) /\
    (forall envs,
        App.run_bg_task skip_list envs
          (App.run_bg_task_cycle skip_list env2
             (App.run_bg_task_cycle skip_list env1 st0)) =
        App.run_bg_task_cycle skip_list env2
          (App.run_bg_task_cycle skip_list env1 st0)).
Proof.
  intros skip_list env1 env2 st0 d e Hrun Hret Hfail.
  assert (H1 : App.run_bg_task_cycle skip_list env1 st0 =
               App.mkApp (Some d) (App.PyDict d) true).
  { unfold App.run_bg_task_cycle. rewrite Hrun.
    pose proof (best_servers_publishes skip_list env1 (App.cache_file st0)
                  App.default_count App.default_max_retries
                  App.default_timeout false) as Hpub.
    rewrite Hret in Hpub |- *. rewrite Hpub. reflexivity. }
  assert (H2 : App.run_bg_task_cycle skip_list env2
                 (App.mkApp (Some d) (App.PyDict d) true) =
               App.mkApp (Some d) (App.PyDict d) false).
  { unfold App.run_bg_task_cycle, App._best_servers. cbn. now rewrite Hfail. }
  rewrite H1, H2. split; [reflexivity|]. split; [reflexivity|].
  split; [reflexivity|]. split; [reflexivity|].
  intros envs. induction envs as [|env envs IH]; [reflexivity|exact IH].
Qed.

(** C8 at an input: the first refresh ranks b before a; the second one
    fails to fetch. *)
Lemma C8_failed_fetch_witness :
  App.run_bg_task_cycle [] env_fetch_fails
    (App.run_bg_task_cycle [] env_first_refresh App.startup) =
  App.mkApp
    (Some [("https://b.example"%string, 1 # 20);
           ("https://a.example"%string, 1 # 10)])
    (App.PyDict [("https://b.example"%string, 1 # 20);
                 ("https://a.example"%string, 1 # 10)])
    false /\
  App.best_server
    (App.run_bg_task_cycle [] env_fetch_fails
       (App.run_bg_task_cycle [] env_first_refresh App.startup))
    "http://127.0.0.1:5000/watch?v=abc" true =
  Return (App.RedirectResponse "https://b.example/watch?v=abc").
Proof.
  destruct (C8_failed_fetch_keeps_cache_and_ends_task [] env_first_refresh
              env_fetch_fails App.startup
              [("https://b.example"%string, 1 # 20);
               ("https://a.example"%string, 1 # 10)]
              URLError eq_refl eq_refl eq_refl) as (_ & H2 & H3 & _).
  split; [exact H2|].
  rewrite H3. reflexivity.
Defined.

(** C2 (refuted by the code).  The claim: before the first publish, or with
    an empty ranking, [best] answers "none available".  The code: before
    the first publish [runner._best_servers] is the string the runner was
    created with, and line 146 calls [.items()] on it: [AttributeError];
    with an empty ranking the list of line 145 is empty and [[0]] raises
    [IndexError].  Both states are reached: the first when the first fetch
    fails, the second when every candidate is skipped. *)
Theorem C2_best_server_warming_up_raises :
  (forall cache s running request_url redirect,
      App.best_server (App.mkApp cache (App.PyStr s) running) request_url
        redirect = Raise AttributeError) /\
  (forall cache running request_url redirect,
      App.best_server (App.mkApp cache (App.PyDict []) running) request_url
        redirect = Raise IndexError) /\
  (forall request_url redirect,
      App.best_server App.startup request_url redirect =
      Raise AttributeError) /\
  (forall request_url redirect,
      App.best_server (App.run_bg_task_cycle [] env_fetch_fails App.startup)
        request_url redirect = Raise AttributeError) /\
  App.run_bg_task_cycle [] env_all_skipped App.startup =
    App.mkApp (Some []) (App.PyDict []) true /\
  (forall request_url redirect,
      App.best_server (App.run_bg_task_cycle [] env_all_skipped App.startup)
        request_url redirect = Raise IndexError).
Proof. repeat split. Qed.

(** C9 (refuted by the code).  The claim: a manual refresh through
    [best_servers] probes with the parameters of the request.  The code:
    line 169 calls [_best_servers(return_markdown=True)], so the refresh runs
    with [count = 10], [max_retries = 1], [timeout = 0.2] whatever the
    request says.  Here: a server that answers in 1/10 three times and in
    3/10 afterwards; a request with [count = 3], [max_retries = 5],
    [timeout = 1] gets the mean 6/25 of ten pings, where [_best_servers]
    with these values sends three pings and reports 1/10. *)
Theorem C9_manual_refresh_ignores_request_parameters :
  (forall skip_list env st count max_retries timeout,
      App.best_servers skip_list env st count max_retries timeout true =
      App.best_servers skip_list env st App.default_count
        App.default_max_retries App.default_timeout true) /\
  App.best_servers [] env_slowing_down App.startup 3 5 1 true =
    (Return
       (App.HTMLResponse
          (App.Rendered
             (App.OutMarkdown
                [mkLine 1 true "https://a.example" (6 # 25)]))),
     App.mkApp (Some [("https://a.example"%string, 6 # 25)])
       (App.runner_best_servers App.startup) true) /\
  App._best_servers [] env_slowing_down None 3 5 1 true =
    App.mkOut
      (Return (App.OutMarkdown [mkLine 1 true "https://a.example" (1 # 10)]))
      (Some [("https://a.example"%string, 1 # 10)])
      [("a.example"%string, 3%nat)].
Proof. repeat split. Qed.

(** * The command-line script *)

(** The script submits the tasks that [app.py] submits with an empty
    exclusion list when the prober is to receive [tolerance] as its
    [max_retries]; the script passes its arguments through globals, without
    the exchange of [app.py]. *)
Lemma cli_submit_all (nw : network) (count tolerance : Z) (timeout : Q)
    (servers : list string) : forall i,
  Cli.submit_all nw count tolerance timeout i servers =
  App.submit_all [] (fun j server _ => nw j server timeout) count 0
    (inject_Z tolerance) i servers.
Proof.
  induction servers as [|s servers IH]; intros i;
    cbn [Cli.submit_all App.submit_all]; [reflexivity|].
  rewrite IH, Qfloor_Z. reflexivity.
Qed.

(** The ranking of the script, for candidates listed once: ascending, and
    without duplicate endpoints in any case. *)
Lemma cli_best_servers_ascending (nw : network) (schedule : list nat)
    (servers : list string) (count tolerance : Z) (timeout : Q) (d : dict) :
  Cli.best_servers nw schedule servers count tolerance timeout = Return d ->
  NoDup (keys d) /\ (NoDup servers -> ascending d).
Proof.
  unfold Cli.best_servers. rewrite cli_submit_all.
  destruct (collect_results _) as [results|e] eqn:Hcol; simpl; [|discriminate].
  intros [= <-]. split; [apply OrderedDict_nodup|].
  intros Hnd.
  apply collect_results_return in Hcol.
  assert (Hperm : Permutation (map Return results)
                    (map value
                       (App.submit_all []
                          (fun j server _ => nw j server timeout) count 0
                          (inject_Z tolerance) 0 servers))).
  { rewrite <- Hcol. apply as_completed_perm. }
  assert (Hres : NoDup (map snd (keep_truthy results))).
  { rewrite <- measured_servers_results.
    apply (Permutation_NoDup
             (Permutation_flat_map _ (Permutation_sym Hperm))).
    now apply measured_servers_nodup. }
  destruct (dict_of_sorted_distinct (fun s => s) results
              (fun a b H => H) Hres) as [Heq Hasc].
  cbn beta in Heq, Hasc. rewrite Heq. exact Hasc.
Qed.

(** * Further properties of the code *)

(** ** When the prober raises, and how many pings it sends *)

Lemma successes_nil (ping : nat -> ping_result) (n : nat) :
  successes ping n = [] ->
  failures ping n = n /\ forall j, (j < n)%nat -> falsy (ping j) = true.
Proof.
  induction n as [|n IH]; simpl.
  - intros _. split; [reflexivity | intros j Hj; lia].
  - intros H. apply app_eq_nil in H. destruct H as [Hn Hlast].
    destruct (IH Hn) as [Hf Hall].
    assert (Hfalsy : falsy (ping n) = true).
    { unfold falsy. destruct (truthy (ping n)); [discriminate | reflexivity]. }
    rewrite Hfalsy, Hf. split; [lia|].
    intros j Hj. destruct (Nat.eq_dec j n) as [-> | Hne]; [exact Hfalsy|].
    apply Hall. lia.
Qed.

Lemma tolerated_not_aborted (ping : nat -> ping_result) (max_retries : Z)
    (n : nat) (st : probe_state) :
  probe_loop ping max_retries n probe_start = LoopReturn st ->
  ~ tolerated ping max_retries 0 n.
Proof.
  intros Hloop Htol.
  pose proof (probe_loop_from_start ping max_retries n) as H.
  rewrite Hloop in H. destruct H as (_ & k & _ & Hk & Hf & Hgt & _).
  specialize (Htol k ltac:(lia) Hf). lia.
Qed.

(** [_iter_ping] raises exactly when the loop ran out of [range(count)]
    without a single success, and what it raises then is
    [StatisticsError]. *)
Theorem iter_ping_raises_iff :
  forall (skip_list : list string) (ping : nat -> ping_result)
         (server : string) (count : Z) (timeout : Q) (max_retries : Z)
         (e : exn),
    (value (App._iter_ping skip_list ping server count timeout max_retries) =
     Raise e <->
     ~ In server skip_list /\ e = StatisticsError /\
     successes ping (Z.to_nat count) = [] /\
     tolerated ping max_retries 0 (Z.to_nat count)) /\
    (value (Cli._iter_ping count max_retries timeout ping server) = Raise e <->
     e = StatisticsError /\
     successes ping (Z.to_nat count) = [] /\
     tolerated ping max_retries 0 (Z.to_nat count)).
Proof.
  intros skip_list ping server count timeout max_retries e.
  assert (Hbody : value (iter_ping_body ping server count max_retries) =
                  Raise e <->
                  e = StatisticsError /\
                  successes ping (Z.to_nat count) = [] /\
                  tolerated ping max_retries 0 (Z.to_nat count)).
  { split.
    - unfold iter_ping_body.
      pose proof (probe_loop_from_start ping max_retries (Z.to_nat count))
        as H.
      destruct (probe_loop ping max_retries (Z.to_nat count) probe_start)
        as [st'|st'] eqn:Hloop; cbn [value]; [|discriminate].
      destruct H as ([Hres _] & Hsent & Htol).
      rewrite Hres, Hsent.
      destruct (successes ping (Z.to_nat count)) as [|q data]; simpl.
      + intros [= <-]. auto.
      + discriminate.
    - intros (-> & Hnone & Htol).
      now rewrite iter_ping_no_success_raises. }
  split; [|exact Hbody].
  unfold App._iter_ping.
  destruct (in_dec string_dec server skip_list) as [Hin | Hnot]; cbn [value].
  - split; [discriminate | intros (Hnot & _); contradiction].
  - rewrite Hbody. tauto.
Qed.

Lemma iter_ping_body_returns (ping : nat -> ping_result) (server : string)
    (count max_retries : Z) :
  0 < count -> max_retries < count ->
  exists r, value (iter_ping_body ping server count max_retries) = Return r.
Proof.
  intros Hpos Hlt.
  destruct (iter_ping_body_cases ping server count max_retries)
    as [Hc | [Hc | (data & _ & _ & Hc)]]; [eauto| |eauto].
  exfalso. unfold iter_ping_body in Hc.
  pose proof (probe_loop_from_start ping max_retries (Z.to_nat count)) as H.
  destruct (probe_loop ping max_retries (Z.to_nat count) probe_start)
    as [st'|st']; cbn [value] in Hc; [|discriminate].
  destruct H as ([Hres _] & Hsent & Htol).
  rewrite Hres, Hsent in Hc.
  destruct (successes ping (Z.to_nat count)) as [|q data] eqn:Hs;
    [|discriminate].
  destruct (successes_nil ping (Z.to_nat count) Hs) as [Hf Hall].
  destruct (Z.to_nat count) as [|n] eqn:Hn; [lia|].
  specialize (Htol n ltac:(lia) (Hall n ltac:(lia))).
  rewrite Hf in Htol. lia.
Qed.

Lemma app_iter_ping_returns (skip_list : list string)
    (ping : nat -> ping_result) (server : string) (count : Z) (timeout : Q)
    (max_retries : Z) :
  0 < count -> max_retries < count ->
  exists r,
    value (App._iter_ping skip_list ping server count timeout max_retries) =
    Return r.
Proof.
  intros Hpos Hlt. unfold App._iter_ping.
  destruct (in_dec string_dec server skip_list); [now exists None|].
  now apply iter_ping_body_returns.
Qed.

(** With at least one probe and more probes than tolerated failures, the
    prober returns whatever the network does: a run without a success has
    [count] failures, which is above [max_retries]. *)
Theorem iter_ping_returns :
  forall (skip_list : list string) (ping : nat -> ping_result)
         (server : string) (count : Z) (timeout : Q) (max_retries : Z),
    0 < count ->
    max_retries < count ->
    (exists r,
        value (App._iter_ping skip_list ping server count timeout max_retries)
        = Return r) /\
    (exists r,
        value (Cli._iter_ping count max_retries timeout ping server)
        = Return r).
Proof.
  intros skip_list ping server count timeout max_retries Hpos Hlt.
  split; [now apply app_iter_ping_returns|].
  now apply iter_ping_body_returns.
Qed.

Lemma iter_ping_returns_witness :
  (0 < 10) /\ (1 < 10) /\
  exists r,
    value (App._iter_ping [] (fun _ => PNone) "a.example" 10 (2 # 10) 1) =
    Return r.
Proof.
  split; [lia|]. split; [lia|].
  exact (proj1 (iter_ping_returns [] (fun _ => PNone) "a.example" 10 (2 # 10)
                  1 ltac:(lia) ltac:(lia))).
Defined.

Lemma iter_ping_body_budget (ping : nat -> ping_result) (server : string)
    (count max_retries : Z) :
  (pings (iter_ping_body ping server count max_retries) <= Z.to_nat count)%nat
  /\
  (forall x,
      value (iter_ping_body ping server count max_retries) = Return (Some x) ->
      pings (iter_ping_body ping server count max_retries) = Z.to_nat count).
Proof.
  unfold iter_ping_body.
  pose proof (probe_loop_from_start ping max_retries (Z.to_nat count)) as H.
  destruct (probe_loop ping max_retries (Z.to_nat count) probe_start)
    as [st'|st']; cbn [value pings].
  - destruct H as (_ & Hsent & _). split; [lia | auto].
  - destruct H as (_ & k & Hsent & Hk & _). split; [lia | discriminate].
Qed.

Lemma app_iter_ping_budget (skip_list : list string)
    (ping : nat -> ping_result) (server : string) (count : Z) (timeout : Q)
    (max_retries : Z) :
  (pings (App._iter_ping skip_list ping server count timeout max_retries)
   <= Z.to_nat count)%nat.
Proof.
  unfold App._iter_ping.
  destruct (in_dec string_dec server skip_list); cbn [pings]; [lia|].
  apply iter_ping_body_budget.
Qed.

(** A call sends at most [count] pings, and all [count] of them when it
    returns a pair. *)
Theorem iter_ping_budget :
  forall (skip_list : list string) (ping : nat -> ping_result)
         (server : string) (count : Z) (timeout : Q) (max_retries : Z),
    (pings (App._iter_ping skip_list ping server count timeout max_retries)
     <= Z.to_nat count)%nat /\
    (pings (Cli._iter_ping count max_retries timeout ping server)
     <= Z.to_nat count)%nat /\
    (forall x,
        value (App._iter_ping skip_list ping server count timeout max_retries)
        = Return (Some x) ->
        pings (App._iter_ping skip_list ping server count timeout max_retries)
        = Z.to_nat count).
Proof.
  intros skip_list ping server count timeout max_retries.
  split; [apply app_iter_ping_budget|].
  split; [apply iter_ping_body_budget|].
  unfold App._iter_ping.
  destruct (in_dec string_dec server skip_list); cbn [value pings];
    [discriminate | apply iter_ping_body_budget].
Qed.

(** ** Refreshes that cannot fail *)

Lemma floor_below (timeout : Q) (count : Z) :
  (timeout < inject_Z count)%Q -> Qfloor timeout < count.
Proof.
  intros Hlt. apply Qlt_bool_iff in Hlt.
  rewrite float_threshold_floor in Hlt.
  destruct (Z.gtb_spec count (Qfloor timeout)); [lia | discriminate].
Qed.

Lemma submit_all_return (skip_list : list string) (nw : network)
    (count max_retries : Z) (timeout : Q) (servers : list string) (i : nat) :
  0 < count -> Qfloor timeout < count ->
  forall e,
    ~ In (Raise e)
        (map value
           (App.submit_all skip_list nw count max_retries timeout i servers)).
Proof.
  intros Hpos Hlt e Hin. apply in_map_iff in Hin.
  destruct Hin as (r & Hr & Hin).
  apply submit_all_in in Hin. destruct Hin as (j & server & _ & ->).
  unfold task in Hr.
  destruct (app_iter_ping_returns skip_list
              (nw (i + j)%nat server (inject_Z max_retries)) server count
              (inject_Z max_retries) (Qfloor timeout) Hpos Hlt) as (x & Hx).
  rewrite Hx in Hr. discriminate.
Qed.

(** Once the Endpoint Source has given its list, [_best_servers] with
    [0 < count] and [timeout < count] returns, whatever the network and the
    scheduler do, and the cache file holds the ranking it returned; with the
    defaults in particular.  It is [timeout] that the tasks receive as their
    [max_retries]: a task without a success has [count] failures, which is
    above it.  No task sent more than [count] pings. *)
Theorem best_servers_returns :
  forall (skip_list : list string) (env : refresh_env)
         (cache_before : option dict) (count max_retries : Z) (timeout : Q)
         (return_markdown : bool) (servers : list string),
    source env = Return servers ->
    0 < count ->
    (timeout < inject_Z count)%Q ->
    (exists o,
        App.returned
          (App._best_servers skip_list env cache_before count max_retries
             timeout return_markdown) = Return o /\
        App.cache_after
          (App._best_servers skip_list env cache_before count max_retries
             timeout return_markdown) = Some (ranking o)) /\
    map fst
      (App.probes
         (App._best_servers skip_list env cache_before count max_retries
            timeout return_markdown)) = servers /\
    Forall (fun sent_by => (snd sent_by <= Z.to_nat count)%nat)
      (App.probes
         (App._best_servers skip_list env cache_before count max_retries
            timeout return_markdown)).
Proof.
  intros skip_list env cache_before count max_retries timeout return_markdown
    servers Hsrc Hpos Hlt.
  split; [|split].
  - destruct (best_servers_cases skip_list env cache_before count max_retries
                timeout return_markdown servers Hsrc)
      as [(results & _ & Hret & Hcache) | (_ & _ & Hin)].
    + eexists. split; [exact Hret|]. now rewrite ranking_rendered.
    + exfalso. revert Hin.
      apply submit_all_return; [exact Hpos | now apply floor_below].
  - rewrite (best_servers_probes skip_list env cache_before count max_retries
               timeout return_markdown servers Hsrc).
    clear Hsrc. generalize 0%nat.
    induction servers as [|s servers IH]; intros i; simpl; [reflexivity|].
    now rewrite IH.
  - rewrite (best_servers_probes skip_list env cache_before count max_retries
               timeout return_markdown servers Hsrc).
    apply Forall_forall. intros [s n] Hin.
    apply submit_all_probes in Hin. destruct Hin as (j & _ & ->).
    unfold task. cbn [snd].
    apply app_iter_ping_budget.
Qed.

Lemma best_servers_returns_witness :
  exists o,
    App.returned
      (App._best_servers [] env_all_skipped None App.default_count
         App.default_max_retries App.default_timeout false) = Return o /\
    App.cache_after
      (App._best_servers [] env_all_skipped None App.default_count
         App.default_max_retries App.default_timeout false) =
    Some (ranking o).
Proof.
  exact (proj1 (best_servers_returns [] env_all_skipped None
                  App.default_count App.default_max_retries
                  App.default_timeout false
                  ["a.example"; "b.example"]%string eq_refl
                  ltac:(reflexivity) ltac:(reflexivity))).
Defined.

(** A call of [_best_servers] writes the cache file only to put there the
    ranking it returns: when it raises, the file is as it was. *)
Theorem best_servers_writes_what_it_returns :
  forall (skip_list : list string) (env : refresh_env)
         (cache_before : option dict) (count max_retries : Z) (timeout : Q)
         (return_markdown : bool),
    (forall o,
        App.returned
          (App._best_servers skip_list env cache_before count max_retries
             timeout return_markdown) = Return o ->
        App.cache_after
          (App._best_servers skip_list env cache_before count max_retries
             timeout return_markdown) = Some (ranking o)) /\
    (forall e,
        App.returned
          (App._best_servers skip_list env cache_before count max_retries
             timeout return_markdown) = Raise e ->
        App.cache_after
          (App._best_servers skip_list env cache_before count max_retries
             timeout return_markdown) = cache_before).
Proof.
  intros skip_list env cache_before count max_retries timeout return_markdown.
  pose proof (best_servers_publishes skip_list env cache_before count
                max_retries timeout return_markdown) as H.
  split.
  - intros o Ho. now rewrite Ho in H.
  - intros e He. now rewrite He in H.
Qed.

(** One scheduled refresh whose source gives a list: the task goes on and
    the state is the ranking of this refresh, whatever was stored before. *)
Lemma run_bg_task_cycle_publishes (skip_list : list string)
    (env : refresh_env) (st : App.app_state) (servers : list string) :
  App.bg_task_running st = true ->
  source env = Return servers ->
  exists d,
    App.returned
      (App._best_servers skip_list env None App.default_count
         App.default_max_retries App.default_timeout false) =
    Return (App.OutDict d) /\
    App.run_bg_task_cycle skip_list env st =
    App.mkApp (Some d) (App.PyDict d) true.
Proof.
  intros Hrun Hsrc. unfold App.run_bg_task_cycle. rewrite Hrun.
  destruct (best_servers_cases skip_list env None App.default_count
              App.default_max_retries App.default_timeout false servers Hsrc)
    as [(results & _ & Hret & _) | (_ & _ & Hin)].
  2:{ exfalso. revert Hin. now apply submit_all_return. }
  destruct (best_servers_cases skip_list env (App.cache_file st)
              App.default_count App.default_max_retries App.default_timeout
              false servers Hsrc)
    as [(results' & _ & Hret' & Hcache') | (_ & _ & Hin)].
  2:{ exfalso. revert Hin. now apply submit_all_return. }
  exists (App.ranking_of results'). rewrite Hret', Hcache'.
  split; [|reflexivity].
  unfold App._best_servers in Hret' |- *. rewrite Hsrc in Hret' |- *.
  destruct (collect_results _); [exact Hret' | discriminate].
Qed.

(** The scheduled refreshes go on as long as the Endpoint Source gives a
    list, whatever the network does, and each replaces the ranking as a
    whole: after the last of them the state is what this refresh alone
    gives from startup. *)
Theorem run_bg_task_survives :
  forall (skip_list : list string) (envs : list refresh_env)
         (env : refresh_env) (st : App.app_state),
    App.bg_task_running st = true ->
    Forall (fun env => exists servers, source env = Return servers)
      (envs ++ [env]) ->
    App.bg_task_running (App.run_bg_task skip_list (envs ++ [env]) st) = true /\
    App.run_bg_task skip_list (envs ++ [env]) st =
    App.run_bg_task_cycle skip_list env App.startup.
Proof.
  intros skip_list envs env st Hrun Hall.
  apply Forall_app in Hall. destruct Hall as [Henvs Henv].
  inversion Henv as [|? ? (servers & Hsrc) _]; subst.
  assert (Hmid : App.bg_task_running (App.run_bg_task skip_list envs st) =
                 true).
  { clear Henv Hsrc. revert st Hrun.
    induction Henvs as [|env0 envs (servers0 & Hsrc0) _ IH]; intros st Hrun;
      [exact Hrun|].
    simpl. apply IH.
    destruct (run_bg_task_cycle_publishes skip_list env0 st servers0 Hrun
                Hsrc0) as (d & _ & ->).
    reflexivity. }
  unfold App.run_bg_task in *. rewrite fold_left_app. simpl.
  destruct (run_bg_task_cycle_publishes skip_list env _ servers Hmid Hsrc)
    as (d & Hd & ->).
  destruct (run_bg_task_cycle_publishes skip_list env App.startup servers
              eq_refl Hsrc) as (d' & Hd' & ->).
  rewrite Hd in Hd'. injection Hd' as ->. auto.
Qed.

Lemma run_bg_task_survives_witness :
  App.run_bg_task [] ([env_all_skipped] ++ [env_first_refresh]) App.startup =
  App.mkApp
    (Some [("https://b.example"%string, 1 # 20);
           ("https://a.example"%string, 1 # 10)])
    (App.PyDict [("https://b.example"%string, 1 # 20);
                 ("https://a.example"%string, 1 # 10)])
    true.
Proof.
  rewrite (proj2 (run_bg_task_survives [] [env_all_skipped] env_first_refresh
                    App.startup eq_refl
                    ltac:(repeat constructor; eexists; reflexivity))).
  reflexivity.
Defined.

(** ** The choice of the best server *)

Lemma py_min_spec (vs : list Q) : forall v0,
  In (py_min v0 vs) (v0 :: vs) /\
  Forall (fun v => py_min v0 vs <= v)%Q (v0 :: vs).
Proof.
  induction vs as [|v vs IH]; intros v0; unfold py_min; simpl.
  - split; [now left|]. constructor; [apply Qle_refl | constructor].
  - fold (py_min (if Qlt_bool v v0 then v else v0) vs).
    destruct (IH (if Qlt_bool v v0 then v else v0)) as [Hin Hle].
    inversion Hle as [|? ? Hm Hvs]; subst.
    assert (Hm0 : ((if Qlt_bool v v0 then v else v0) <= v0)%Q /\
                  ((if Qlt_bool v v0 then v else v0) <= v)%Q).
    { destruct (Qlt_bool v v0) eqn:Hlt.
      - apply Qlt_bool_iff in Hlt. split; [now apply Qlt_le_weak|].
        apply Qle_refl.
      - split; [apply Qle_refl|].
        unfold Qlt_bool in Hlt. apply negb_false_iff in Hlt.
        now apply Qle_bool_iff in Hlt. }
    split.
    + destruct Hin as [Hin | Hin]; [|auto].
      rewrite <- Hin. destruct (Qlt_bool v v0); auto.
    + constructor; [|constructor]; [| |exact Hvs].
      * eapply Qle_trans; [exact Hm | apply Hm0].
      * eapply Qle_trans; [exact Hm | apply Hm0].
Qed.

Lemma filter_head {A : Type} (f : A -> bool) (l : list A) (x : A)
    (rest : list A) :
  filter f l = x :: rest ->
  f x = true /\
  exists before after,
    l = before ++ x :: after /\ Forall (fun y => f y = false) before.
Proof.
  induction l as [|y l IH]; simpl; [discriminate|].
  destruct (f y) eqn:Hy.
  - intros [= -> <-]. split; [exact Hy|]. exists [], l. split; auto.
  - intros H. destruct (IH H) as (Hx & before & after & -> & Hb).
    split; [exact Hx|]. exists (y :: before), after. split; auto.
Qed.

(** With a ranking that is not empty the choice does not raise. *)
Lemma best_server_choice_returns (cache : option dict) (running : bool)
    (d : dict) :
  d <> [] ->
  exists k,
    App.best_server_choice (App.mkApp cache (App.PyDict d) running) = Return k.
Proof.
  intros Hne. unfold App.best_server_choice. cbn [App.runner_best_servers].
  destruct d as [|[k0 v0] d']; [congruence|]. clear Hne.
  cbn [values map snd].
  destruct (py_min_spec (map snd d') v0) as [Hin _].
  set (m := py_min v0 (map snd d')) in *.
  destruct (filter (fun kv => Qeq_bool (snd kv) m) ((k0, v0) :: d'))
    as [|[k v] rest] eqn:Hf; [|now exists k].
  exfalso.
  change (v0 :: map snd d') with (map snd ((k0, v0) :: d')) in Hin.
  apply in_map_iff in Hin. destruct Hin as (kv & Hkv & Hin).
  assert (Hx : In kv (filter (fun kv => Qeq_bool (snd kv) m)
                        ((k0, v0) :: d'))).
  { apply filter_In. split; [exact Hin|]. rewrite Hkv. apply Qeq_bool_refl. }
  rewrite Hf in Hx. destruct Hx.
Qed.

(** With a ranking that is not empty, [best_server] chooses a key whose
    value is the smallest of the values, and the first such key in the order
    of the dictionary; it does not raise before the redirect target is
    built. *)
Theorem best_server_chooses_smallest :
  forall (cache : option dict) (running : bool) (d : dict),
    d <> [] ->
    exists k v before after,
      App.best_server_choice (App.mkApp cache (App.PyDict d) running) =
      Return k /\
      d = before ++ (k, v) :: after /\
      Forall (fun kv => v <= snd kv)%Q d /\
      Forall (fun kv => ~ (snd kv == v)%Q) before.
Proof.
  intros cache running d Hne.
  unfold App.best_server_choice. cbn [App.runner_best_servers].
  destruct d as [|[k0 v0] d']; [congruence|]. clear Hne.
  cbn [values map snd].
  destruct (py_min_spec (map snd d') v0) as [Hin Hle].
  set (m := py_min v0 (map snd d')) in *.
  destruct (filter (fun kv => Qeq_bool (snd kv) m) ((k0, v0) :: d'))
    as [|[k v] rest] eqn:Hf.
  - exfalso.
    change (v0 :: map snd d') with (map snd ((k0, v0) :: d')) in Hin.
    apply in_map_iff in Hin. destruct Hin as (kv & Hkv & Hin).
    assert (Hx : In kv (filter (fun kv => Qeq_bool (snd kv) m)
                          ((k0, v0) :: d'))).
    { apply filter_In. split; [exact Hin|]. rewrite Hkv.
      apply Qeq_bool_refl. }
    rewrite Hf in Hx. destruct Hx.
  - destruct (filter_head _ _ _ _ Hf) as (Hv & before & after & Hd & Hb).
    cbn [snd] in Hv. apply Qeq_bool_iff in Hv.
    exists k, v, before, after. cbn [fst].
    split; [reflexivity|]. split; [exact Hd|]. split.
    + change (v0 :: map snd d') with (map snd ((k0, v0) :: d')) in Hle.
      rewrite Forall_map in Hle. eapply Forall_impl; [|exact Hle].
      intros kv Hkv. cbn beta in Hkv. now rewrite Hv.
    + eapply Forall_impl; [|exact Hb].
      intros kv Hkv Heq. cbn beta in Hkv.
      apply Qeq_bool_neq in Hkv. apply Hkv. now rewrite Heq, Hv.
Qed.

Lemma best_server_chooses_smallest_witness :
  exists k v before after,
    App.best_server_choice
      (App.mkApp None
         (App.PyDict [("https://b.example"%string, 1 # 20);
                      ("https://a.example"%string, 1 # 10)]) true) =
    Return k /\
    [("https://b.example"%string, 1 # 20);
     ("https://a.example"%string, 1 # 10)] = before ++ (k, v) :: after /\
    Forall (fun kv => v <= snd kv)%Q
      [("https://b.example"%string, 1 # 20);
       ("https://a.example"%string, 1 # 10)] /\
    Forall (fun kv => ~ (snd kv == v)%Q) before.
Proof.
  apply (best_server_chooses_smallest None true
           [("https://b.example"%string, 1 # 20);
            ("https://a.example"%string, 1 # 10)]).
  discriminate.
Defined.

(** On an ascending ranking, as a refresh over distinct candidates
    publishes it, the choice is the first entry. *)
Theorem best_server_first_of_ascending :
  forall (cache : option dict) (running : bool) (k : string) (v : Q)
         (rest : dict),
    ascending ((k, v) :: rest) ->
    App.best_server_choice
      (App.mkApp cache (App.PyDict ((k, v) :: rest)) running) = Return k.
Proof.
  intros cache running k v rest Hasc.
  unfold App.best_server_choice. cbn [App.runner_best_servers].
  cbn [values map snd filter].
  destruct (py_min_spec (map snd rest) v) as [Hin Hle].
  inversion Hle as [|? ? Hm _]; subst.
  assert (Hge : (v <= py_min v (map snd rest))%Q).
  { destruct Hin as [<- | Hin]; [apply Qle_refl|].
    unfold ascending in Hasc. cbn [values map snd] in Hasc.
    inversion Hasc as [|? ? _ Hall]; subst.
    rewrite Forall_forall in Hall. now apply Hall. }
  assert (Heq : Qeq_bool v (py_min v (map snd rest)) = true).
  { apply Qeq_bool_iff. now apply Qle_antisym. }
  now rewrite Heq.
Qed.

Lemma best_server_first_of_ascending_witness :
  App.best_server_choice
    (App.run_bg_task_cycle [] env_first_refresh App.startup) =
  Return "https://b.example"%string.
Proof.
  apply (best_server_first_of_ascending
           (Some [("https://b.example"%string, 1 # 20);
                  ("https://a.example"%string, 1 # 10)])
           true "https://b.example" (1 # 20)
           [("https://a.example"%string, 1 # 10)]).
  unfold ascending; simpl.
  repeat constructor; unfold Qle; simpl; lia.
Defined.

(** ** The redirect target *)

Lemma contains_false (sep : string) (c : ascii) (s : string) :
  contains sep (String c s) = false ->
  String.prefix sep (String c s) = false /\ contains sep s = false.
Proof.
  cbn [contains].
  destruct (String.prefix sep (String c s)); [discriminate | auto].
Qed.

Lemma split_from_not_nil (sep : string) (s : string) : forall skip field,
  split_from sep s skip field <> [].
Proof.
  induction s as [|c s IH]; intros skip field; cbn [split_from];
    [discriminate|].
  destruct skip as [|k]; [|apply IH].
  destruct (String.prefix sep (String c s)); [discriminate | apply IH].
Qed.

(** Without an occurrence of the separator there is one field. *)
Lemma split_absent (sep : string) (s : string) : forall field,
  contains sep s = false ->
  split_from sep s O field = [String.append field s].
Proof.
  induction s as [|c s IH]; intros field Hc; cbn [split_from].
  - f_equal. induction field as [|a field IHf]; simpl; congruence.
  - apply contains_false in Hc. destruct Hc as [Hp Hc]. rewrite Hp.
    rewrite (IH _ Hc). f_equal.
    induction field as [|a field IHf]; simpl; congruence.
Qed.

(** With an occurrence of a separator that is not empty there are at least
    two fields. *)
Lemma split_present (a : ascii) (sep' : string) (s : string) : forall field,
  contains (String a sep') s = true ->
  exists x y rest, split_from (String a sep') s O field = x :: y :: rest.
Proof.
  induction s as [|c s IH]; intros field Hc.
  - discriminate.
  - cbn [contains] in Hc. cbn [split_from].
    destruct (String.prefix (String a sep') (String c s)) eqn:Hp.
    + destruct (split_from (String a sep') s
                  (String.length (String a sep') - 1) EmptyString)
        as [|y rest] eqn:Hs.
      * now apply split_from_not_nil in Hs.
      * now exists field, y, rest.
    + now apply IH.
Qed.

Lemma item_1_split (a : ascii) (sep' : string) (s : string) :
  if contains (String a sep') s
  then exists x, item_1 (str_split (String a sep') s) = Return x
  else item_1 (str_split (String a sep') s) = Raise IndexError.
Proof.
  unfold str_split.
  destruct (contains (String a sep') s) eqn:Hc.
  - destruct (split_present a sep' s EmptyString Hc) as (x & y & rest & ->).
    now exists y.
  - now rewrite split_absent.
Qed.

Lemma prefix_append (s x : string) : String.prefix s (String.append s x) = true.
Proof.
  induction s as [|c s IH]; simpl; [now destruct x|].
  destruct (ascii_dec c c); [exact IH | congruence].
Qed.

Lemma prefix_refl (s : string) : String.prefix s s = true.
Proof.
  induction s as [|c s IH]; simpl; [reflexivity|].
  destruct (ascii_dec c c); [exact IH | congruence].
Qed.

Lemma append_assoc (a b c : string) :
  String.append (String.append a b) c = String.append a (String.append b c).
Proof. induction a as [|x a IH]; simpl; congruence. Qed.

Lemma redirect_target_raises (_best_server request_url : string) (e : exn) :
  App.redirect_target _best_server request_url = Raise e -> e = IndexError.
Proof.
  unfold App.redirect_target.
  pose proof (item_1_split "/" "watch?v=" request_url) as Hw.
  pose proof (item_1_split "/" "channel/" request_url) as Hc.
  destruct (contains "watch" request_url);
    destruct (contains "/watch?v=" request_url);
    destruct (contains "channel" request_url);
    destruct (contains "/channel/" request_url);
    try destruct Hw as (vid & ->); try rewrite Hw;
    try destruct Hc as (cid & ->); try rewrite Hc;
    cbn [py_bind]; congruence.
Qed.

Lemma redirect_target_plain (_best_server request_url : string) :
  contains "watch" request_url = false ->
  contains "channel" request_url = false ->
  App.redirect_target _best_server request_url = Return _best_server.
Proof.
  intros Hw Hc. unfold App.redirect_target. now rewrite Hw, Hc.
Qed.

(** The redirect target is built unless the URL has the word [watch]
    without [/watch?v=], or the word [channel] without [/channel/]: then
    [[1]] is out of range and [best_server] raises [IndexError].  Nothing
    else is raised, and a target that is built starts with the chosen
    server; it is the server itself when the URL has neither word. *)
Theorem redirect_target_cases :
  forall (_best_server request_url : string),
    (App.redirect_target _best_server request_url = Raise IndexError <->
     contains "watch" request_url = true /\
     contains "/watch?v=" request_url = false \/
     contains "channel" request_url = true /\
     contains "/channel/" request_url = false) /\
    (forall e,
        App.redirect_target _best_server request_url = Raise e ->
        e = IndexError) /\
    (forall url,
        App.redirect_target _best_server request_url = Return url ->
        String.prefix _best_server url = true) /\
    (contains "watch" request_url = false ->
     contains "channel" request_url = false ->
     App.redirect_target _best_server request_url = Return _best_server).
Proof.
  intros srv url. unfold App.redirect_target.
  pose proof (item_1_split "/" "watch?v=" url) as Hw.
  pose proof (item_1_split "/" "channel/" url) as Hc.
  destruct (contains "watch" url) eqn:Cw;
    destruct (contains "/watch?v=" url) eqn:Cwv;
    destruct (contains "channel" url) eqn:Cc;
    destruct (contains "/channel/" url) eqn:Ccv;
    try destruct Hw as (vid & ->); try rewrite Hw;
    try destruct Hc as (cid & ->); try rewrite Hc;
    cbn [py_bind]; (split; [|split; [|split]]).
  all: try (split; [discriminate | intros [[? ?] | [? ?]]; discriminate]).
  all: try (split; [tauto | reflexivity]).
  all: try (intros e He; congruence).
  all: try (intros; discriminate).
  all: try (intros ? [= <-]; rewrite ?append_assoc;
            first [apply prefix_append | apply prefix_refl]).
  all: try (intros; reflexivity).
Qed.

(** ** The manual refresh and the report *)

(** A manual refresh through [best_servers(return_markdown=True)] writes the
    cache file and nothing else: [runner._best_servers] and the background
    task are as before, so [best_server] goes on answering from the ranking
    of the last scheduled refresh, while [best_servers] without
    [return_markdown] answers the new one.  When the refresh raises, the
    file is as before too. *)
Theorem manual_refresh_leaves_runner :
  forall (skip_list : list string) (env : refresh_env) (st : App.app_state)
         (count max_retries : Z) (timeout : Q),
    App.runner_best_servers
      (snd (App.best_servers skip_list env st count max_retries timeout true))
    = App.runner_best_servers st /\
    App.bg_task_running
      (snd (App.best_servers skip_list env st count max_retries timeout true))
    = App.bg_task_running st /\
    (forall request_url redirect,
        App.best_server
          (snd (App.best_servers skip_list env st count max_retries timeout
                  true)) request_url redirect =
        App.best_server st request_url redirect) /\
    (forall resp,
        fst (App.best_servers skip_list env st count max_retries timeout true)
        = Return resp ->
        exists o,
          resp = App.HTMLResponse (App.Rendered o) /\
          forall env' count' max_retries' timeout',
            fst (App.best_servers skip_list env'
                   (snd (App.best_servers skip_list env st count max_retries
                           timeout true))
                   count' max_retries' timeout' false) =
            Return (App.PrettyJSONResponse (ranking o))) /\
    (forall e,
        fst (App.best_servers skip_list env st count max_retries timeout true)
        = Raise e ->
        App.cache_file
          (snd (App.best_servers skip_list env st count max_retries timeout
                  true)) = App.cache_file st).
Proof.
  intros skip_list env st count max_retries timeout.
  unfold App.best_servers. cbn [fst snd].
  pose proof (best_servers_publishes skip_list env (App.cache_file st)
                App.default_count App.default_max_retries App.default_timeout
                true) as Hpub.
  split; [reflexivity|]. split; [reflexivity|]. split; [reflexivity|].
  destruct (App.returned
              (App._best_servers skip_list env (App.cache_file st)
                 App.default_count App.default_max_retries
                 App.default_timeout true)) as [o|e0]; cbn [py_bind].
  - split; [|discriminate].
    intros resp [= <-]. exists o. split; [reflexivity|].
    intros env' count' max_retries' timeout'.
    cbn [App.cache_file]. now rewrite Hpub.
  - split; [discriminate|]. intros e _. exact Hpub.
Qed.

Lemma md_lines_numbered (d : dict) : forall a,
  md_lines (S a) (Nat.eqb a 0) d =
  map (fun p => report_line (fst p) (snd p))
    (combine (seq a (List.length d)) d).
Proof.
  induction d as [|[uri latency] d IH]; intros a; simpl; [reflexivity|].
  f_equal. exact (IH (S a)).
Qed.

(** The report has one line per entry of the ranking, in its order; the line
    of the entry at position [i] has the number [i + 1], and the rocket when
    it is the first.  This is the report of the script and the one
    [_best_servers(return_markdown=True)] returns. *)
Theorem report_lines_numbered :
  forall d : dict,
    Cli.index_md d =
    map (fun p => report_line (fst p) (snd p))
      (combine (seq 0 (List.length d)) d) /\
    List.length (Cli.index_md d) = List.length d /\
    (forall skip_list env cache_before count max_retries timeout o,
        App.returned
          (App._best_servers skip_list env cache_before count max_retries
             timeout true) = Return o ->
        App.cache_after
          (App._best_servers skip_list env cache_before count max_retries
             timeout true) = Some d ->
        o = App.OutMarkdown (Cli.index_md d)).
Proof.
  intros d. unfold Cli.index_md.
  assert (Hd : md_lines 1 true d =
               map (fun p => report_line (fst p) (snd p))
                 (combine (seq 0 (List.length d)) d))
    by exact (md_lines_numbered d 0).
  split; [exact Hd|]. split.
  - rewrite Hd, length_map, length_combine, length_seq.
    apply Nat.min_id.
  - intros skip_list env cache_before count max_retries timeout o Ho Hc.
    unfold App._best_servers in Ho, Hc.
    destruct (source env) as [servers|e]; [|discriminate].
    destruct (collect_results _) as [results|e]; [|discriminate].
    cbn [App.returned App.cache_after] in Ho, Hc.
    congruence.
Qed.

(** ** The Endpoint Source *)

Lemma keep_instance_spec (inst : instance) (servers : list string) :
  keep_instance inst servers =
  match monitored inst with
  | None => Return servers
  | Some m =>
      match dailyRatios m with
      | [] => Raise StatisticsError
      | _ :: _ =>
          Return (if healthy inst then servers ++ [host_of inst]
                  else servers)
      end
  end.
Proof.
  unfold keep_instance, healthy, monitored, host_of.
  destruct (inst_monitor inst) as [m|]; [|reflexivity].
  destruct (String.eqb (inst_type inst) "https"); [|reflexivity].
  destruct (String.eqb (statusClass m) "success"); [|reflexivity].
  cbn [negb andb].
  destruct (dailyRatios m) as [|q ratios] eqn:Hr; [reflexivity|].
  rewrite mean_nonempty by discriminate. cbn [py_bind].
  unfold Qlt_bool. rewrite Qred_correct.
  now destruct (Qle_bool 99 (arithmetic_mean (q :: ratios))).
Qed.


Lemma select_loop_raises (resp : list instance) : forall servers inst m,
  In inst resp -> monitored inst = Some m -> dailyRatios m = [] ->
  select_loop resp servers = Raise StatisticsError.
Proof.
  induction resp as [|inst0 resp IH]; intros servers inst m Hin Hm Hr;
    [destruct Hin|].
  simpl. rewrite keep_instance_spec.
  destruct Hin as [-> | Hin].
  - now rewrite Hm, Hr.
  - destruct (monitored inst0) as [m0|]; cbn [py_bind]; [|eauto].
    destruct (dailyRatios m0); cbn [py_bind]; [reflexivity | eauto].
Qed.




(** An instance that has a monitor, the type [https] and the status class
    [success] but no daily ratio makes [statistics.mean] raise: the fetch
    gives no list at all, and a scheduled refresh in this case ends the
    background task. *)
Theorem select_servers_empty_ratios_raises :
  forall (resp : list instance) (inst : instance) (m : monitor)
         (skip_list : list string) (nw : network) (schedule : list nat)
         (st : App.app_state),
    In inst resp ->
    monitored inst = Some m ->
    dailyRatios m = [] ->
    select_servers resp = Raise StatisticsError /\
    Cli.main (Return resp) nw schedule = Raise StatisticsError /\
    (App.bg_task_running st = true ->
     App.run_bg_task_cycle skip_list
       (mkEnv (endpoint_source (Return resp)) nw schedule) st =
     App.mkApp (App.cache_file st) (App.runner_best_servers st) false).
Proof.
  intros resp inst m skip_list nw schedule st Hin Hm Hr.
  assert (H : select_servers resp = Raise StatisticsError).
  { unfold select_servers.
    apply (select_loop_raises (rev resp) [] inst m); auto.
    now apply in_rev in Hin. }
  split; [exact H|]. split.
  - unfold Cli.main, endpoint_source. cbn [py_bind]. now rewrite H.
  - intros Hrun. unfold App.run_bg_task_cycle, App._best_servers.
    rewrite Hrun. cbn [source endpoint_source py_bind]. now rewrite H.
Qed.

Lemma select_servers_empty_ratios_witness :
  select_servers instances_no_ratio = Raise StatisticsError.
Proof.
  exact (proj1 (select_servers_empty_ratios_raises instances_no_ratio
                  (mkInstance (Some (mkMonitor "success" [])) "https"
                     "https://b.example")
                  (mkMonitor "success" []) [] (steady []) [] App.startup
                  ltac:(simpl; tauto) eq_refl eq_refl)).
Defined.

Lemma replace_absent (old new : string) (s : string) :
  contains old s = false -> replace_from old new s O = s.
Proof.
  induction s as [|c s IH]; intros Hc; cbn [replace_from]; [reflexivity|].
  apply contains_false in Hc. destruct Hc as [Hp Hc].
  now rewrite Hp, IH.
Qed.

(** For a uri made of [https://] and a host without [https://] in it, the
    loop stores the host, and the key that [_best_servers] builds for this
    host is the uri again. *)
Theorem host_of_https_uri :
  forall (mon : option monitor) (type host : string),
    contains "https://" host = false ->
    host_of (mkInstance mon type (App.https host)) = host /\
    App.https (host_of (mkInstance mon type (App.https host))) =
    App.https host.
Proof.
  intros mon type host Hc.
  assert (H : host_of (mkInstance mon type (App.https host)) = host).
  { unfold host_of, str_replace, App.https. cbn [inst_uri].
    change (String.append "https://" host)
      with (String "h" (String.append "ttps://" host)).
    cbn [replace_from].
    change (String "h" (String.append "ttps://" host))
      with (String.append "https://" host).
    rewrite prefix_append. cbn.
    now apply replace_absent. }
  split; [exact H | now rewrite H].
Qed.

Lemma host_of_https_uri_witness :
  host_of (mkInstance None "https" "https://yewtu.be") = "yewtu.be"%string.
Proof.
  exact (proj1 (host_of_https_uri None "https" "yewtu.be" eq_refl)).
Defined.

(** ** The script *)

(** The ranking of the script does not depend on the order in which the
    tasks complete. *)
Theorem cli_ranking_independent_of_schedule :
  forall (nw : network) (schedule1 schedule2 : list nat)
         (servers : list string) (count tolerance : Z) (timeout : Q),
    Cli.best_servers nw schedule1 servers count tolerance timeout =
    Cli.best_servers nw schedule2 servers count tolerance timeout.
Proof.
  intros nw schedule1 schedule2 servers count tolerance timeout.
  unfold Cli.best_servers. rewrite cli_submit_all.
  set (vals := map value
                 (App.submit_all []
                          (fun j server _ => nw j server timeout) count 0
                          (inject_Z tolerance) 0 servers)).
  pose proof (as_completed_perm schedule1 vals) as Hp1.
  pose proof (as_completed_perm schedule2 vals) as Hp2.
  destruct (collect_results (as_completed schedule1 vals))
    as [results1|e1] eqn:H1;
    destruct (collect_results (as_completed schedule2 vals))
      as [results2|e2] eqn:H2; cbn [py_bind].
  - apply collect_results_return in H1, H2. rewrite H1 in Hp1.
    rewrite H2 in Hp2.
    assert (Hres : Permutation results1 results2).
    { apply map_Return_perm.
      apply Permutation_trans with vals; [exact Hp1|].
      now apply Permutation_sym. }
    do 3 f_equal. apply sorted_of_perm; [|now apply keep_truthy_perm].
    apply Forall_forall. intros [v s] Hin. apply keep_truthy_in in Hin.
    assert (Hv : In (Return (Some (v, s))) (map Return results1))
      by now apply in_map.
    apply (Permutation_in _ Hp1) in Hv.
    now apply submit_all_measured in Hv.
  - exfalso. apply collect_results_return in H1.
    apply collect_results_raise in H2.
    apply (Permutation_in _ Hp2) in H2.
    apply (Permutation_in _ (Permutation_sym Hp1)) in H2.
    rewrite H1 in H2. apply in_map_iff in H2.
    destruct H2 as (x & Hx & _). discriminate.
  - exfalso. apply collect_results_return in H2.
    apply collect_results_raise in H1.
    apply (Permutation_in _ Hp1) in H1.
    apply (Permutation_in _ (Permutation_sym Hp2)) in H1.
    rewrite H2 in H1. apply in_map_iff in H1.
    destruct H1 as (x & Hx & _). discriminate.
  - apply collect_results_raise in H1, H2.
    apply (Permutation_in _ Hp1) in H1. apply (Permutation_in _ Hp2) in H2.
    apply submit_all_raise in H1, H2. now subst.
Qed.

(** A ranking that the script returns has no duplicate endpoint; each of its
    entries is a candidate with the mean that its task returned; it is
    ascending when no candidate is listed twice. *)
Theorem cli_ranking_well_formed :
  forall (nw : network) (schedule : list nat) (servers : list string)
         (count tolerance : Z) (timeout : Q) (d : dict),
    Cli.best_servers nw schedule servers count tolerance timeout = Return d ->
    NoDup (keys d) /\
    (forall server latency,
        In (server, latency) d ->
        exists j,
          nth_error servers j = Some server /\
          Measured
            (Cli._iter_ping count tolerance timeout (nw j server timeout)
               server) server latency) /\
    (NoDup servers -> ascending d).
Proof.
  intros nw schedule servers count tolerance timeout d Hd.
  destruct (cli_best_servers_ascending nw schedule servers count tolerance
              timeout d Hd) as [Hnd Hasc].
  split; [exact Hnd|]. split; [|exact Hasc].
  intros server latency Hin.
  unfold Cli.best_servers in Hd. rewrite cli_submit_all in Hd.
  destruct (collect_results _) as [results|e] eqn:Hcol; cbn [py_bind] in Hd;
    [|discriminate].
  injection Hd as <-.
  apply OrderedDict_in in Hin. apply in_map_iff in Hin.
  destruct Hin as ([v s] & [= <- <-] & Hin).
  apply (Permutation_in _ (sorted_perm _)) in Hin.
  apply keep_truthy_in in Hin.
  apply collect_results_return in Hcol.
  assert (Hv : In (Return (Some (v, s))) (map Return results))
    by now apply in_map.
  rewrite <- Hcol in Hv.
  apply (Permutation_in _ (as_completed_perm _ _)) in Hv.
  apply submit_all_measured in Hv. destruct Hv as (_ & j & Hj & Hm).
  exists j. split; [exact Hj|].
  unfold Measured, task in Hm. rewrite Qfloor_Z in Hm. exact Hm.
Qed.

Lemma cli_ranking_well_formed_witness :
  Cli.best_servers
    (scripted [[PFloat (1 # 10); PFloat (1 # 10)]; [];
               [PFloat (1 # 20); PFloat (1 # 20)]])
    [2; 0]%nat ["b.example"; "c.example"; "a.example"]%string 2 1 1 =
  Return [("a.example"%string, 1 # 20); ("b.example"%string, 1 # 10)] /\
  ascending [("a.example"%string, 1 # 20); ("b.example"%string, 1 # 10)].
Proof.
  split; [reflexivity|].
  apply (cli_ranking_well_formed
           (scripted [[PFloat (1 # 10); PFloat (1 # 10)]; [];
                      [PFloat (1 # 20); PFloat (1 # 20)]])
           [2; 0]%nat ["b.example"; "c.example"; "a.example"]%string 2 1 1
           _ eq_refl).
  repeat constructor; simpl; intuition discriminate.
Defined.

(** [main()] raises what the fetch or the selection raised; once these gave
    the candidates it returns their ranking, whatever the network does: with
    [count = 10] and [tolerance = 4] no task can raise. *)
Theorem cli_main_returns :
  forall (fetched : py (list instance)) (nw : network) (schedule : list nat),
    match endpoint_source fetched with
    | Raise e => Cli.main fetched nw schedule = Raise e
    | Return servers =>
        exists d,
          Cli.main fetched nw schedule = Return d /\
          Cli.best_servers nw schedule servers 10 4 1 = Return d
    end.
Proof.
  intros fetched nw schedule. unfold Cli.main.
  destruct (endpoint_source fetched) as [servers|e]; cbn [py_bind];
    [|reflexivity].
  destruct (Cli.best_servers nw schedule servers 10 4 1) as [d|e] eqn:Hd;
    [now exists d|].
  exfalso. unfold Cli.best_servers in Hd. rewrite cli_submit_all in Hd.
  destruct (collect_results _) as [results|e'] eqn:Hcol; cbn [py_bind] in Hd;
    [discriminate|].
  apply collect_results_raise in Hcol.
  apply (Permutation_in _ (as_completed_perm _ _)) in Hcol.
  revert Hcol. apply submit_all_return; [lia | rewrite Qfloor_Z; lia].
Qed.

(** ** What the handlers raise *)

(** [best_server] raises [AttributeError] exactly when
    [runner._best_servers] is still a string, and nothing else but
    [IndexError].  With a ranking that is not empty it answers the chosen
    server when [redirect] is false, and redirects to it when the URL has
    neither [watch] nor [channel]. *)
Theorem best_server_errors :
  forall (st : App.app_state) (request_url : string) (redirect : bool),
    (forall e,
        App.best_server st request_url redirect = Raise e ->
        e = AttributeError \/ e = IndexError) /\
    (App.best_server st request_url redirect = Raise AttributeError <->
     exists s, App.runner_best_servers st = App.PyStr s) /\
    (forall d,
        App.runner_best_servers st = App.PyDict d ->
        d <> [] ->
        exists k,
          App.best_server_choice st = Return k /\
          App.best_server st request_url false =
          Return (App.HTMLResponse (App.Text k)) /\
          (contains "watch" request_url = false ->
           contains "channel" request_url = false ->
           App.best_server st request_url true =
           Return (App.RedirectResponse k))).
Proof.
  intros [cache runner running] url redirect.
  cbn [App.runner_best_servers].
  assert (Hraise : forall e,
             App.best_server (App.mkApp cache runner running) url redirect =
             Raise e ->
             (e = AttributeError /\ exists s, runner = App.PyStr s) \/
             (e = IndexError /\ exists d, runner = App.PyDict d)).
  { intros e. unfold App.best_server.
    destruct runner as [s|d].
    - cbn. intros [= <-]. left. eauto.
    - destruct (App.best_server_choice (App.mkApp cache (App.PyDict d) running))
        as [k|e0] eqn:Hk; cbn [py_bind].
      + destruct (negb redirect); [discriminate|].
        destruct (App.redirect_target k url) as [t|e1] eqn:Ht;
          cbn [py_bind]; [discriminate|].
        intros [= <-]. right.
        split; [|eauto].
        now apply (redirect_target_raises k url).
      + intros [= <-]. right. split; [|eauto].
        unfold App.best_server_choice in Hk.
        cbn [App.runner_best_servers] in Hk.
        destruct (filter _ d); congruence. }
  split; [|split].
  - intros e He. destruct (Hraise e He) as [[-> _] | [-> _]]; auto.
  - split.
    + intros He. destruct (Hraise _ He) as [[_ Hs] | [Hd _]];
        [exact Hs | discriminate].
    + intros (s & ->). reflexivity.
  - intros d -> Hne.
    destruct (best_server_choice_returns cache running d Hne) as (k & Hk).
    exists k. split; [exact Hk|].
    unfold App.best_server. rewrite Hk. cbn [py_bind negb].
    split; [reflexivity|].
    intros Hw Hc.
    now rewrite (redirect_target_plain k url Hw Hc).
Qed.

(** [best_servers] without [return_markdown] answers the contents of the
    cache file and raises [FileNotFoundError] when there is none: before the
    first refresh has written it, and after [_app_shutdown] has removed it.
    It starts no refresh: the state is as before.  [_app_shutdown] leaves
    [runner._best_servers] alone, so [best_server] answers as before. *)
Theorem best_servers_json_needs_cache :
  forall (skip_list : list string) (env : refresh_env) (st : App.app_state)
         (count max_retries : Z) (timeout : Q),
    snd (App.best_servers skip_list env st count max_retries timeout false)
    = st /\
    (forall e,
        fst (App.best_servers skip_list env st count max_retries timeout false)
        = Raise e <-> e = FileNotFoundError /\ App.cache_file st = None) /\
    (forall resp,
        fst (App.best_servers skip_list env st count max_retries timeout false)
        = Return resp <->
        exists d,
          App.cache_file st = Some d /\ resp = App.PrettyJSONResponse d) /\
    fst (App.best_servers skip_list env App.startup count max_retries timeout
           false) = Raise FileNotFoundError /\
    fst (App.best_servers skip_list env (App._app_shutdown st) count
           max_retries timeout false) = Raise FileNotFoundError /\
    (forall request_url redirect,
        App.best_server (App._app_shutdown st) request_url redirect =
        App.best_server st request_url redirect).
Proof.
  intros skip_list env [cache runner running] count max_retries timeout.
  unfold App.best_servers, App._app_shutdown. cbn [App.cache_file].
  destruct cache as [d|]; cbn [fst snd App.cache_file].
  - repeat split; try reflexivity; try discriminate.
    + intros [_ H]; discriminate.
    + intros [= <-]. now exists d.
    + intros (d' & [= <-] & ->). reflexivity.
  - repeat split; try reflexivity; try discriminate.
    + congruence.
    + intros [-> _]. reflexivity.
    + intros (d' & H & _). discriminate.
Qed.
